(** * Ollama MCP server: the tool dispatcher and its handlers

  A shallow embedding of [src/index.ts]: the [CallToolRequestSchema]
  handler installed by [setupToolHandlers], the ten [handle*] methods it
  routes to, [formatError], and the stream transform of [handleRun].

  The backends (the [ollama] command run through [child_process.exec], the
  daemon reached through [axios.post], the clock read by [Date.now]) are
  inputs of the model: a [World] answers every call, and the handlers are
  written in a small state-and-exception monad that records each call.
  A call to a backend resolves or rejects; a request can also fail to
  settle because an error is thrown outside its promise, on which the
  process dies. A command that never exits is outside the model. The
  argument bag has the types its [inputSchema] declares. *)

From Stdlib Require Import String Ascii List ZArith QArith Lia Bool.
From Stdlib Require Import DecimalString DecimalZ.
Import ListNotations.

Set Warnings "-register-all".

Local Open Scope string_scope.
Local Open Scope Z_scope.

(* ================================================================== *)
(** * Strings *)
(* ================================================================== *)

Module Str.

(** [needle] occurs in [hay]. *)
Definition contains (needle hay : string) : Prop :=
  exists pre post, hay = pre ++ needle ++ post.

(** [Array.prototype.join('')] on strings. *)
Fixpoint join_empty (l : list string) : string :=
  match l with
  | [] => ""
  | s :: r => s ++ join_empty r
  end.

(** [l.join(sep)]. *)
Fixpoint join (sep : string) (l : list string) : string :=
  match l with
  | [] => ""
  | [s] => s
  | s :: r => s ++ sep ++ join sep r
  end.

(** Some character of [s] satisfies [p]. *)
Fixpoint existsb (p : ascii -> bool) (s : string) : bool :=
  match s with
  | EmptyString => false
  | String c r => p c || existsb p r
  end.

End Str.

(* ================================================================== *)
(** * JavaScript values that the server serialises or decodes *)
(* ================================================================== *)

Module Js.

(** The result of [JSON.parse], and the argument of [JSON.stringify].
    [JUndefined] is the value of a property that is absent.  Numbers are
    the integral ones: every number this server serialises is integral
    ([Date.now()], its quotient by 1000, the index 0); a numeral with a
    fraction or an exponent is kept as it is written. *)
Inductive value : Type :=
| JUndefined
| JNull
| JBool (b : bool)
| JNum (z : Z)
| JNumLit (numeral : string)
| JStr (s : string)
| JArr (items : list value)
| JObj (fields : list (string * value)).

(** [Number.prototype.toString] of an integral number below 10^21. *)
Definition Number_toString (z : Z) : string :=
  NilEmpty.string_of_int (Z.to_int z).

(** [o.key]: the own property of an object produced by [JSON.parse] (the
    last one wins when the text repeats a key), [undefined] on any other
    value that can carry a property access. *)
Fixpoint lookup (key : string) (fields : list (string * value)) : value :=
  match fields with
  | [] => JUndefined
  | (k, v) :: r =>
      match lookup key r with
      | JUndefined => if String.eqb k key then v else JUndefined
      | later => later
      end
  end.

Definition dquote : string := String (ascii_of_nat 34) "".

Definition hex_digit (n : nat) : ascii :=
  ascii_of_nat (if Nat.ltb n 10 then 48 + n else 87 + n).

(** One character of a string under [QuoteJSONString]. *)
Definition quote_char (c : ascii) : string :=
  let n := nat_of_ascii c in
  if Nat.eqb n 34 then String (ascii_of_nat 92) dquote
  else if Nat.eqb n 92 then String c (String c "")
  else if Nat.eqb n 8 then String (ascii_of_nat 92) "b"
  else if Nat.eqb n 12 then String (ascii_of_nat 92) "f"
  else if Nat.eqb n 10 then String (ascii_of_nat 92) "n"
  else if Nat.eqb n 13 then String (ascii_of_nat 92) "r"
  else if Nat.eqb n 9 then String (ascii_of_nat 92) "t"
  else if Nat.ltb n 32 then
    String (ascii_of_nat 92)
      ("u00" ++ String (hex_digit (Nat.div n 16))
                  (String (hex_digit (Nat.modulo n 16)) ""))
  else String c "".

Fixpoint quote_body (s : string) : string :=
  match s with
  | EmptyString => ""
  | String c r => quote_char c ++ quote_body r
  end.

Definition quote (s : string) : string := dquote ++ quote_body s ++ dquote.

Definition newline : string := String (ascii_of_nat 10) "".

(** [SerializeJSONProperty] for [JSON.stringify(v, null, 2)]: the gap is
    two spaces and [ind] the current indentation; [None] is [undefined]
    (the property is left out of an object, and printed as [null] in an
    array). *)
Fixpoint serialize (ind : string) (v : value) : option string :=
  match v with
  | JUndefined => None
  | JNull => Some "null"
  | JBool true => Some "true"
  | JBool false => Some "false"
  | JNum z => Some (Number_toString z)
  | JNumLit n => Some n
  | JStr s => Some (quote s)
  | JArr items =>
      let ind' := ind ++ "  " in
      let parts :=
        map (fun x => match serialize ind' x with
                      | Some s => s
                      | None => "null"
                      end) items in
      match parts with
      | [] => Some "[]"
      | _ => Some ("[" ++ newline ++ ind'
                       ++ Str.join ("," ++ newline ++ ind') parts
                       ++ newline ++ ind ++ "]")
      end
  | JObj fields =>
      let ind' := ind ++ "  " in
      let parts :=
        flat_map (fun kv => match serialize ind' (snd kv) with
                            | Some s => [quote (fst kv) ++ ": " ++ s]
                            | None => []
                            end) fields in
      match parts with
      | [] => Some "{}"
      | _ => Some ("{" ++ newline ++ ind'
                       ++ Str.join ("," ++ newline ++ ind') parts
                       ++ newline ++ ind ++ "}")
      end
  end.

(** [JSON.stringify(v, null, 2)]; its result is [undefined] only when [v]
    is, which [None] stands for. *)
Definition JSON_stringify (v : value) : option string := serialize "" v.

End Js.

(* ================================================================== *)
(** * Errors *)
(* ================================================================== *)

(** [ErrorCode] of the MCP SDK, with its JSON-RPC numbers. *)
Inductive ErrorCode : Type :=
| ConnectionClosed
| RequestTimeout
| ParseError
| InvalidRequest
| MethodNotFound
| InvalidParams
| InternalError.

Definition ErrorCode_number (c : ErrorCode) : Z :=
  match c with
  | ConnectionClosed => -32000
  | RequestTimeout => -32001
  | ParseError => -32700
  | InvalidRequest => -32600
  | MethodNotFound => -32601
  | InvalidParams => -32602
  | InternalError => -32603
  end.

(** What a [throw] or a rejected promise carries. *)
Inductive Exn : Type :=
| McpError (code : ErrorCode) (message : string)
    (* new McpError(code, message) *)
| AxiosError (response_data_error : option string) (message : string)
    (* error.response?.data?.error, error.message *)
| Error (message : string)
    (* any other Error: TypeError, SyntaxError, the rejection of exec *)
| Thrown (shown : string).
    (* a value that is not an Error; [shown] is String(value) *)

(** [error.message] of an [McpError]: the SDK's constructor prefixes the
    message it is given. *)
Definition McpError_message (code : ErrorCode) (message : string) : string :=
  "MCP error " ++ Js.Number_toString (ErrorCode_number code) ++ ": " ++ message.

(** [formatError]: [error.message] of an [Error], [String(error)] of
    anything else. *)
Definition formatError (error : Exn) : string :=
  match error with
  | McpError code message => McpError_message code message
  | AxiosError _ message => message
  | Error message => message
  | Thrown shown => shown
  end.

(** [error instanceof McpError] *)
Definition instanceof_McpError (error : Exn) : bool :=
  match error with McpError _ _ => true | _ => false end.

(** [a || b] on strings: the empty string is falsy. *)
Definition or_string (a b : string) : string :=
  if String.eqb a "" then b else a.

(** [error.response?.data?.error || error.message] *)
Definition axios_error_text (response_data_error : option string)
  (message : string) : string :=
  match response_data_error with
  | Some e => or_string e message
  | None => message
  end.

(** The codes of a Fault as the specification names them, and the
    [ErrorCode] each one is. No [ErrorCode] is a [backend_error]. *)
Module Spec.

Inductive FaultCode : Type :=
| not_found
| invalid_argument
| backend_error
| internal_error.

Definition fault_code (c : ErrorCode) : option FaultCode :=
  match c with
  | MethodNotFound => Some not_found
  | InvalidParams => Some invalid_argument
  | InternalError => Some internal_error
  | _ => None
  end.

(** The characters a POSIX shell gives a meaning to. *)
Definition shell_metachar (c : ascii) : bool :=
  Str.existsb (Ascii.eqb c)
    (";&|<>()$`\'*?[]#~=%!{} " ++ Js.dquote ++ Js.newline).

Definition has_shell_metachar (s : string) : bool :=
  Str.existsb shell_metachar s.

End Spec.

(* ================================================================== *)
(** * A decoder for JSON text *)
(* ================================================================== *)

(** [JSON.parse] on the JSON grammar, used to run the server on concrete
    daemon output. The theorems below hold for whatever decoder the
    [World] has. It departs from [JSON.parse] where the runs in this file
    do not go: an integer beyond 2^53 is not rounded, a numeral with a
    fraction or an exponent is kept as its text, an escaped surrogate pair
    is not joined into one character, and the message of the
    [SyntaxError] is the engine's and is not reproduced. *)
Module JsonText.

Local Open Scope nat_scope.

Definition code (c : ascii) : nat := nat_of_ascii c.

Definition is_ws (c : ascii) : bool :=
  let n := code c in
  Nat.eqb n 32 || Nat.eqb n 9 || Nat.eqb n 10 || Nat.eqb n 13.

Definition is_digit (c : ascii) : bool :=
  let n := code c in Nat.leb 48 n && Nat.leb n 57.

Fixpoint skip_ws (s : string) : string :=
  match s with
  | String c r => if is_ws c then skip_ws r else s
  | EmptyString => s
  end.

(** The digits at the head of [s], and what follows them. *)
Fixpoint digits (s : string) : string * string :=
  match s with
  | String c r =>
      if is_digit c then let (d, rest) := digits r in (String c d, rest)
      else ("", s)
  | EmptyString => ("", s)
  end.

Fixpoint digits_value (acc : Z) (d : string) : Z :=
  match d with
  | String c r => digits_value (10 * acc + Z.of_nat (code c - 48))%Z r
  | EmptyString => acc
  end.

(** The integer part of a numeral: [0], or digits that do not start
    with [0]. *)
Definition int_part (s : string) : option (string * string) :=
  match digits s with
  | (EmptyString, _) => None
  | (String c EmptyString, rest) => Some (String c "", rest)
  | (String c d, rest) =>
      if Nat.eqb (code c) 48 then Some ("0", d ++ rest)
      else Some (String c d, rest)
  end.

Definition frac_part (s : string) : option (string * string) :=
  match s with
  | String "." r =>
      match digits r with
      | (EmptyString, _) => None
      | (d, rest) => Some ("." ++ d, rest)
      end
  | _ => Some ("", s)
  end.

Definition exp_digits (mark : string) (s : string) : option (string * string) :=
  match digits s with
  | (EmptyString, _) => None
  | (d, rest) => Some (mark ++ d, rest)
  end.

Definition exp_part (s : string) : option (string * string) :=
  match s with
  | String e r =>
      if Nat.eqb (code e) 101 || Nat.eqb (code e) 69 then
        match r with
        | String "+" r' => exp_digits (String e "+") r'
        | String "-" r' => exp_digits (String e "-") r'
        | _ => exp_digits (String e "") r
        end
      else Some ("", s)
  | EmptyString => Some ("", s)
  end.

Definition number (s : string) : option (Js.value * string) :=
  let (sign, s1) :=
    match s with
    | String "-" r => ("-", r)
    | _ => ("", s)
    end in
  match int_part s1 with
  | None => None
  | Some (i, s2) =>
      match frac_part s2 with
      | None => None
      | Some (f, s3) =>
          match exp_part s3 with
          | None => None
          | Some (e, s4) =>
              if String.eqb f "" && String.eqb e "" then
                let z := digits_value 0%Z i in
                Some (Js.JNum (if String.eqb sign "" then z else (- z)%Z), s4)
              else Some (Js.JNumLit (sign ++ i ++ f ++ e), s4)
          end
      end
  end.

Definition hex_value (c : ascii) : option nat :=
  let n := code c in
  if Nat.leb 48 n && Nat.leb n 57 then Some (n - 48)
  else if Nat.leb 97 n && Nat.leb n 102 then Some (n - 87)
  else if Nat.leb 65 n && Nat.leb n 70 then Some (n - 55)
  else None.

(** The UTF-8 bytes of a code unit below 2^16. *)
Definition utf8 (u : nat) : string :=
  let byte n := String (ascii_of_nat n) "" in
  if Nat.ltb u 128 then byte u
  else if Nat.ltb u 2048 then
    byte (192 + Nat.div u 64) ++ byte (128 + Nat.modulo u 64)
  else
    byte (224 + Nat.div u 4096)
      ++ byte (128 + Nat.modulo (Nat.div u 64) 64)
      ++ byte (128 + Nat.modulo u 64).

(** The characters of a string literal after its opening quote. *)
Fixpoint chars (s : string) : option (string * string) :=
  let cons x r := option_map (fun p => (x ++ fst p, snd p)) (chars r) in
  match s with
  | EmptyString => None
  | String c r =>
      let n := code c in
      if Nat.eqb n 34 then Some ("", r)
      else if Nat.ltb n 32 then None
      else if Nat.eqb n 92 then
        match r with
        | String e r' =>
            let m := code e in
            if Nat.eqb m 34 || Nat.eqb m 92 || Nat.eqb m 47 then
              cons (String e "") r'
            else if Nat.eqb m 98 then cons (String (ascii_of_nat 8) "") r'
            else if Nat.eqb m 102 then cons (String (ascii_of_nat 12) "") r'
            else if Nat.eqb m 110 then cons (String (ascii_of_nat 10) "") r'
            else if Nat.eqb m 114 then cons (String (ascii_of_nat 13) "") r'
            else if Nat.eqb m 116 then cons (String (ascii_of_nat 9) "") r'
            else if Nat.eqb m 117 then
              match r' with
              | String h1 (String h2 (String h3 (String h4 r''))) =>
                  match hex_value h1, hex_value h2, hex_value h3, hex_value h4 with
                  | Some a, Some b, Some c', Some d =>
                      cons (utf8 (((a * 16 + b) * 16 + c') * 16 + d)) r''
                  | _, _, _, _ => None
                  end
              | _ => None
              end
            else None
        | EmptyString => None
        end
      else cons (String c "") r
  end.

(** After [[] or a comma of an array: an element, then a comma or []]. *)
Fixpoint elements (value : string -> option (Js.value * string))
  (fuel : nat) (s : string) (acc : list Js.value)
  : option (Js.value * string) :=
  match fuel with
  | O => None
  | S fuel' =>
      match value s with
      | None => None
      | Some (v, rest) =>
          match skip_ws rest with
          | String "," r => elements value fuel' r (acc ++ [v])
          | String "]" r => Some (Js.JArr (acc ++ [v]), r)
          | _ => None
          end
      end
  end.

(** After [{] or a comma of an object: a member, then a comma or [}]. *)
Fixpoint members (value : string -> option (Js.value * string))
  (fuel : nat) (s : string) (acc : list (string * Js.value))
  : option (Js.value * string) :=
  match fuel with
  | O => None
  | S fuel' =>
      match skip_ws s with
      | String q r =>
          if Nat.eqb (code q) 34 then
            match chars r with
            | None => None
            | Some (key, rest) =>
                match skip_ws rest with
                | String ":" r' =>
                    match value r' with
                    | None => None
                    | Some (v, rest') =>
                        match skip_ws rest' with
                        | String "," r'' =>
                            members value fuel' r'' (acc ++ [(key, v)])
                        | String "}" r'' =>
                            Some (Js.JObj (acc ++ [(key, v)]), r'')
                        | _ => None
                        end
                    end
                | _ => None
                end
            end
          else None
      | EmptyString => None
      end
  end.

Definition literal (word : string) (v : Js.value) (s : string)
  : option (Js.value * string) :=
  if prefix word s
  then Some (v, substring (String.length word)
                          (String.length s - String.length word) s)
  else None.

(** A value at the head of [s], after white space. *)
Fixpoint value (fuel : nat) (s : string) : option (Js.value * string) :=
  match fuel with
  | O => None
  | S fuel' =>
      match skip_ws s with
      | EmptyString => None
      | String c r =>
          let n := code c in
          if Nat.eqb n 123 then
            match skip_ws r with
            | String "}" r' => Some (Js.JObj [], r')
            | _ => members (value fuel') fuel' r []
            end
          else if Nat.eqb n 91 then
            match skip_ws r with
            | String "]" r' => Some (Js.JArr [], r')
            | _ => elements (value fuel') fuel' r []
            end
          else if Nat.eqb n 34 then
            option_map (fun p => (Js.JStr (fst p), snd p)) (chars r)
          else if Nat.eqb n 116 then literal "true" (Js.JBool true) (String c r)
          else if Nat.eqb n 102 then literal "false" (Js.JBool false) (String c r)
          else if Nat.eqb n 110 then literal "null" Js.JNull (String c r)
          else number (String c r)
      end
  end.

Definition parse (text : string) : Exn + Js.value :=
  match value (S (String.length text)) text with
  | Some (v, rest) =>
      match skip_ws rest with
      | EmptyString => inr v
      | _ => inl (Error "Unexpected token in JSON")
      end
  | None => inl (Error "Unexpected token in JSON")
  end.

End JsonText.

(* ================================================================== *)
(** * Requests, responses and the backends *)
(* ================================================================== *)

(** An element of [args.messages]. *)
Record ChatMessage : Type := {
  role : string;
  content : string
}.

(** [request.params.arguments] with the fields the handlers read; a field
    that is absent ([undefined]) is [None]. [num_predict] and [think] are
    fields the documentation tells callers to send. *)
Record Args : Type := {
  name : option string;
  modelfile : option string;
  show_flag : option string;
  verbose : option bool;
  prompt : option string;
  timeout : option Z;
  source : option string;
  destination : option string;
  model : option string;
  messages : option (list ChatMessage);
  temperature : option Q;
  num_predict : option Z;
  think : option bool
}.

Definition no_args : Args :=
  {| name := None; modelfile := None; show_flag := None; verbose := None;
     prompt := None; timeout := None; source := None; destination := None;
     model := None; messages := None; temperature := None;
     num_predict := None; think := None |}.

(** [request.params] *)
Record Request : Type := {
  tool : string;
  arguments : option Args
}.

(** [interface OllamaGenerateResponse] *)
Record OllamaGenerateResponse : Type := {
  r_model : string;
  r_created_at : string;
  response : string;
  done : bool
}.

(** The first argument a process-backed operation hands to [exec]. *)
Definition Command : Type := string.

(** The second argument of [axios.post]: the request body. A key the
    object literal does not write, or writes with an [undefined] value,
    never reaches the daemon: it is [None]. *)
Record GenerateBody : Type := {
  b_model : option string;
  b_prompt : option string;
  b_stream : bool;
  b_temperature : option Q;
  b_raw : option bool;
  b_num_predict : option Z;
  b_think : option bool
}.

(** The third argument of [axios.post]. *)
Record AxiosConfig : Type := {
  c_timeout : Z;
  c_responseType : option string
}.

Record HttpRequest : Type := {
  url : string;
  body : GenerateBody;
  config : AxiosConfig
}.

(** A chunk of a web stream: the [Uint8Array] of bytes that the body of a
    [fetch] response delivers, or a string. *)
Inductive Chunk : Type :=
| Uint8Array (bytes : string)
| Text (s : string).

(** [bytes.join(',')] *)
Fixpoint joined_bytes (bytes : string) : string :=
  match bytes with
  | EmptyString => ""
  | String b EmptyString => Js.Number_toString (Z.of_nat (nat_of_ascii b))
  | String b rest =>
      Js.Number_toString (Z.of_nat (nat_of_ascii b)) ++ "," ++ joined_bytes rest
  end.

(** [chunk.toString()]: a typed array prints its bytes in decimal, with
    commas between them; a string is itself. *)
Definition Chunk_toString (chunk : Chunk) : string :=
  match chunk with
  | Uint8Array bytes => joined_bytes bytes
  | Text s => s
  end.

(** [response.data] of a resolved [axios.post]: the decoded JSON body, or
    with [responseType: 'stream'] a readable of chunks, which offers
    [pipeThrough] when it is a web stream and does not when it is a Node
    stream (the one that axios delivers under Node; its chunks are given
    by their text). *)
Inductive ResponseData : Type :=
| JsonBody (payload : OllamaGenerateResponse)
| WebStream (chunks : list Chunk)
| NodeStream (chunks : list string).

Inductive ExecOutcome : Type :=
| ExecResolved (stdout stderr : string)
| ExecRejected (error : Exn).

(** How [axios.post] ends. [HttpUncaught]: the promise never settles,
    because an error is thrown outside it while the request is set up (as
    Node's [setTimeout] does for a negative timeout), and the process dies
    on that error; [message] is its text. *)
Inductive HttpOutcome : Type :=
| HttpResolved (data : ResponseData)
| HttpRejected (error : Exn)
| HttpUncaught (message : string).

(** Everything outside the server. *)
Record World : Type := {
  env_OLLAMA_HOST : option string;         (* process.env.OLLAMA_HOST *)
  exec : Command -> ExecOutcome;           (* promisify(exec) *)
  post : HttpRequest -> HttpOutcome;       (* axios.post *)
  now : nat -> Z;                          (* the n-th reading of Date.now() *)
  JSON_parse : string -> Exn + Js.value    (* JSON.parse *)
}.

(** The rejection of [exec] for a command that exits with a code other
    than 0: Node's [child_process] builds this message. *)
Definition command_failed (cmd : Command) (stderr : string) : Exn :=
  Error ("Command failed: " ++ cmd ++ Js.newline ++ stderr).

(** The rejection of [axios.post] when the [timeout] of the request
    elapses: no response, and axios's message. *)
Definition timeout_exceeded (ms : Z) : Exn :=
  AxiosError None ("timeout of " ++ Js.Number_toString ms ++ "ms exceeded").

(** A call that left the server. *)
Inductive Event : Type :=
| Exec (cmd : Command)
| Post (req : HttpRequest)
| Now.

(** What a stream that the server hands out produces when it is read to
    its end: the chunks, then a normal end or the error it fails with. *)
Record Stream : Type := {
  emitted : list Js.value;
  failure : option Exn
}.

(** A content block and the result of a tool call. *)
Inductive ContentBlock : Type :=
| text_block (text : string)
| stream_block (stream : Stream).

Record Envelope : Type := {
  content_of : list ContentBlock
}.

(* ================================================================== *)
(** * The monad of the handlers *)
(* ================================================================== *)

(** The calls made so far, oldest first, and how often the clock was read. *)
Record State : Type := {
  trace : list Event;
  reads : nat
}.

Definition initial : State := {| trace := []; reads := 0 |}.

(** How an [async] computation ends: it returns, it throws (its promise
    is rejected), or the process dies on an error that was thrown outside
    the promise it awaits, which no [catch] of the computation sees. *)
Inductive Outcome (A : Type) : Type :=
| Returned (a : A)
| Raised (e : Exn)
| Died (message : string).

Arguments Returned {A} a.
Arguments Raised {A} e.
Arguments Died {A} message.

Definition M (A : Type) : Type := State -> Outcome A * State.

Definition ret {A} (a : A) : M A := fun st => (Returned a, st).

Definition throw {A} (e : Exn) : M A := fun st => (Raised e, st).

Definition bind {A B} (c : M A) (k : A -> M B) : M B :=
  fun st =>
    match c st with
    | (Returned a, st') => k a st'
    | (Raised e, st') => (Raised e, st')
    | (Died message, st') => (Died message, st')
    end.

(** [try { body } catch (error) { handler }] *)
Definition try_catch {A} (body : M A) (handler : Exn -> M A) : M A :=
  fun st =>
    match body st with
    | (Raised e, st') => handler e st'
    | ended => ended
    end.

Declare Scope js_scope.
Delimit Scope js_scope with js.
Notation "x <- c ;; k" := (bind c (fun x => k))
  (at level 61, c at next level, right associativity) : js_scope.
Local Open Scope js_scope.

Definition record (ev : Event) (st : State) : State :=
  {| trace := trace st ++ [ev]; reads := reads st |}.

(** [`${v}`] of a string that may be [undefined]. *)
Definition tmpl (v : option string) : string :=
  match v with
  | Some s => s
  | None => "undefined"
  end.

(** [if (v)] on a string that may be [undefined]. *)
Definition truthy_string (v : option string) : bool :=
  match v with
  | Some s => negb (String.eqb s "")
  | None => false
  end.

(** [if (v)] on a boolean that may be [undefined]. *)
Definition truthy_bool (v : option bool) : bool :=
  match v with
  | Some b => b
  | None => false
  end.

(** [a || b] on numbers: 0 and [undefined] are falsy. *)
Definition or_number (a : option Z) (b : Z) : Z :=
  match a with
  | Some n => if Z.eqb n 0 then b else n
  | None => b
  end.

(** [args.field]: reading a property of [undefined] is a [TypeError]. *)
Definition prop {A} (args : option Args) (field : string) (get : Args -> A)
  : M A :=
  match args with
  | Some a => ret (get a)
  | None =>
      throw (Error ("Cannot read properties of undefined (reading '"
                      ++ field ++ "')"))
  end.

Definition DEFAULT_TIMEOUT : Z := 60000.

(** [{ content: [{ type: 'text', text: stdout || stderr }] }] *)
Definition text_result (out : string * string) : Envelope :=
  {| content_of := [text_block (or_string (fst out) (snd out))] |}.

(** What [handleChatCompletion] passes to [JSON.stringify]. [model] and
    [content] are [undefined] when the caller sent no model and when the
    daemon's answer has no [response]. *)
Definition js_string (v : option string) : Js.value :=
  match v with
  | Some s => Js.JStr s
  | None => Js.JUndefined
  end.

Definition chat_completion (now_id now_created : Z) (model : option string)
  (content : option string) : list (string * Js.value) :=
  [ ("id", Js.JStr ("chatcmpl-" ++ Js.Number_toString now_id));
    ("object", Js.JStr "chat.completion");
    ("created", Js.JNum (now_created / 1000));
    ("model", js_string model);
    ("choices",
      Js.JArr
        [ Js.JObj
            [ ("index", Js.JNum 0);
              ("message",
                Js.JObj [ ("role", Js.JStr "assistant");
                          ("content", js_string content) ]);
              ("finish_reason", Js.JStr "stop") ] ]) ].

(** The string that [JSON.stringify(o, null, 2)] returns for an object. *)
Definition stringify_object (fields : list (string * Js.value)) : string :=
  match Js.JSON_stringify (Js.JObj fields) with
  | Some s => s
  | None => ""
  end.

(** The callback of [args.messages.map]. *)
Definition render (msg : ChatMessage) : string :=
  if String.eqb (role msg) "system" then
    "System: " ++ content msg ++ Js.newline
  else if String.eqb (role msg) "user" then
    "User: " ++ content msg ++ Js.newline
  else if String.eqb (role msg) "assistant" then
    "Assistant: " ++ content msg ++ Js.newline
  else "".

(** [args.messages.map(...).join('')] *)
Definition flatten (msgs : list ChatMessage) : string :=
  Str.join_empty (map render msgs).

(** [response.data.response] *)
Definition data_response (data : ResponseData) : option string :=
  match data with
  | JsonBody payload => Some (response payload)
  | WebStream _ => None
  | NodeStream _ => None
  end.

(** ** The stream of [handleRun] *)

Definition enqueue (v : Js.value) (controller : Stream) : Stream :=
  {| emitted := emitted controller ++ [v]; failure := failure controller |}.

Definition controller_error (e : Exn) (controller : Stream) : Stream :=
  {| emitted := emitted controller; failure := Some e |}.

Definition fresh : Stream := {| emitted := []; failure := None |}.

(** [json.response] *)
Definition json_response (json : Js.value) : Exn + Js.value :=
  match json with
  | Js.JNull =>
      inl (Error "Cannot read properties of null (reading 'response')")
  | Js.JUndefined =>
      inl (Error "Cannot read properties of undefined (reading 'response')")
  | Js.JObj fields => inr (Js.lookup "response" fields)
  | _ => inr Js.JUndefined
  end.

(* ================================================================== *)
(** * The server *)
(* ================================================================== *)

Section Server.

Variable w : World.

(** [process.env.OLLAMA_HOST || 'http://127.0.0.1:11434'] *)
Definition OLLAMA_HOST : string :=
  match env_OLLAMA_HOST w with
  | Some h => or_string h "http://127.0.0.1:11434"
  | None => "http://127.0.0.1:11434"
  end.

(** [await execAsync(cmd)] *)
Definition execAsync (cmd : Command) : M (string * string) :=
  fun st =>
    match exec w cmd with
    | ExecResolved stdout stderr =>
        (Returned (stdout, stderr), record (Exec cmd) st)
    | ExecRejected error => (Raised error, record (Exec cmd) st)
    end.

(** The error [axios.post] rejects with, as the caller gets it: with
    [responseType: 'stream'] the [data] of an error response is the unread
    stream, which has no [error] property, whatever the daemon wrote. *)
Definition delivered (config : AxiosConfig) (error : Exn) : Exn :=
  match c_responseType config, error with
  | Some type, AxiosError _ message =>
      if String.eqb type "stream" then AxiosError None message else error
  | _, _ => error
  end.

(** [await axios.post(url, body, config)] *)
Definition axios_post (req : HttpRequest) : M ResponseData :=
  fun st =>
    match post w req with
    | HttpResolved data => (Returned data, record (Post req) st)
    | HttpRejected error =>
        (Raised (delivered (config req) error), record (Post req) st)
    | HttpUncaught message => (Died message, record (Post req) st)
    end.

(** [Date.now()] *)
Definition Date_now : M Z :=
  fun st =>
    (Returned (now w (reads st)),
     {| trace := trace st ++ [Now]; reads := S (reads st) |}).

(** What the [try] block of [transform] computes, before it enqueues,
    from [data], the text that [chunk.toString()] gave:
    [JSON.parse(data).response]. *)
Definition delta (data : string) : Exn + Js.value :=
  match JSON_parse w data with
  | inr json => json_response json
  | inl error => inl error
  end.

(** The [transform(chunk, controller)] of the [TransformStream], on the
    text [data] of the chunk. *)
Definition transform (data : string) (controller : Stream) : Stream :=
  match delta data with
  | inr d => enqueue d controller
  | inl error =>
      controller_error
        (McpError InternalError
           ("Error processing stream: " ++ formatError error))
        controller
  end.

(** The readable side of the [TransformStream] fed with chunks whose
    texts are [chunks]: once the controller is put in error no later chunk
    is transformed. *)
Fixpoint piped (chunks : list string) (controller : Stream) : Stream :=
  match chunks with
  | [] => controller
  | chunk :: rest =>
      let controller' := transform chunk controller in
      match failure controller' with
      | Some _ => controller'
      | None => piped rest controller'
      end
  end.

(** [response.data.pipeThrough(transformStream)] *)
Definition pipeThrough (data : ResponseData) : M Stream :=
  match data with
  | WebStream chunks => ret (piped (map Chunk_toString chunks) fresh)
  | JsonBody _ | NodeStream _ =>
      throw (Error "response.data.pipeThrough is not a function")
  end.

Definition handleServe : M Envelope :=
  try_catch
    (out <- execAsync "ollama serve" ;;
     ret (text_result out))
    (fun error =>
       throw (McpError InternalError
                ("Failed to start Ollama server: " ++ formatError error))).

Definition handleCreate (args : option Args) : M Envelope :=
  try_catch
    (n <- prop args "name" name ;;
     f <- prop args "modelfile" modelfile ;;
     out <- execAsync ("ollama create " ++ tmpl n ++ " -f " ++ tmpl f) ;;
     ret (text_result out))
    (fun error =>
       throw (McpError InternalError
                ("Failed to create model: " ++ formatError error))).

Definition handleShow (args : option Args) : M Envelope :=
  try_catch
    (n <- prop args "name" name ;;
     let command := "ollama show " ++ tmpl n in
     flag <- prop args "show_flag" show_flag ;;
     let command :=
       if truthy_string flag then command ++ " --" ++ tmpl flag
       else command in
     v <- prop args "verbose" verbose ;;
     let command :=
       if truthy_bool v then command ++ " --verbose" else command in
     out <- execAsync command ;;
     ret (text_result out))
    (fun error =>
       throw (McpError InternalError
                ("Failed to show model info: " ++ formatError error))).

Definition handleRun (args : option Args) : M Envelope :=
  try_catch
    (n <- prop args "name" name ;;
     p <- prop args "prompt" prompt ;;
     t <- prop args "timeout" timeout ;;
     data <- axios_post
       {| url := OLLAMA_HOST ++ "/api/generate";
          body := {| b_model := n; b_prompt := p; b_stream := true;
                     b_temperature := None; b_raw := None;
                     b_num_predict := None; b_think := None |};
          config := {| c_timeout := or_number t DEFAULT_TIMEOUT;
                       c_responseType := Some "stream" |} |} ;;
     s <- pipeThrough data ;;
     ret {| content_of := [stream_block s] |})
    (fun error =>
       match error with
       | AxiosError response_data_error message =>
           throw (McpError InternalError
                    ("Ollama API error: "
                       ++ axios_error_text response_data_error message))
       | _ =>
           throw (McpError InternalError
                    ("Failed to run model: " ++ formatError error))
       end).

Definition handlePull (args : option Args) : M Envelope :=
  try_catch
    (n <- prop args "name" name ;;
     out <- execAsync ("ollama pull " ++ tmpl n) ;;
     ret (text_result out))
    (fun error =>
       throw (McpError InternalError
                ("Failed to pull model: " ++ formatError error))).

Definition handlePush (args : option Args) : M Envelope :=
  try_catch
    (n <- prop args "name" name ;;
     out <- execAsync ("ollama push " ++ tmpl n) ;;
     ret (text_result out))
    (fun error =>
       throw (McpError InternalError
                ("Failed to push model: " ++ formatError error))).

Definition handleList : M Envelope :=
  try_catch
    (out <- execAsync "ollama list" ;;
     ret (text_result out))
    (fun error =>
       throw (McpError InternalError
                ("Failed to list models: " ++ formatError error))).

Definition handleCopy (args : option Args) : M Envelope :=
  try_catch
    (s <- prop args "source" source ;;
     d <- prop args "destination" destination ;;
     out <- execAsync ("ollama cp " ++ tmpl s ++ " " ++ tmpl d) ;;
     ret (text_result out))
    (fun error =>
       throw (McpError InternalError
                ("Failed to copy model: " ++ formatError error))).

Definition handleRemove (args : option Args) : M Envelope :=
  try_catch
    (n <- prop args "name" name ;;
     out <- execAsync ("ollama rm " ++ tmpl n) ;;
     ret (text_result out))
    (fun error =>
       throw (McpError InternalError
                ("Failed to remove model: " ++ formatError error))).

(** [args.messages.map(f).join('')]: [map] is read from [args.messages]. *)
Definition map_join (msgs : option (list ChatMessage)) : M string :=
  match msgs with
  | Some l => ret (flatten l)
  | None => throw (Error "Cannot read properties of undefined (reading 'map')")
  end.

Definition handleChatCompletion (args : option Args) : M Envelope :=
  try_catch
    (msgs <- prop args "messages" messages ;;
     prompt <- map_join msgs ;;
     m <- prop args "model" model ;;
     temp <- prop args "temperature" temperature ;;
     t <- prop args "timeout" timeout ;;
     data <- axios_post
       {| url := OLLAMA_HOST ++ "/api/generate";
          body := {| b_model := m; b_prompt := Some prompt; b_stream := false;
                     b_temperature := temp; b_raw := Some true;
                     b_num_predict := None; b_think := None |};
          config := {| c_timeout := or_number t DEFAULT_TIMEOUT;
                       c_responseType := None |} |} ;;
     now_id <- Date_now ;;
     now_created <- Date_now ;;
     m' <- prop args "model" model ;;
     ret {| content_of :=
              [text_block
                 (stringify_object
                    (chat_completion now_id now_created m'
                       (data_response data)))] |})
    (fun error =>
       match error with
       | AxiosError response_data_error message =>
           throw (McpError InternalError
                    ("Ollama API error: "
                       ++ axios_error_text response_data_error message))
       | _ =>
           throw (McpError InternalError
                    ("Unexpected error: " ++ formatError error))
       end).

(** The handler of [CallToolRequestSchema]. *)
Definition CallToolRequest (request : Request) : M Envelope :=
  let name := tool request in
  let args := arguments request in
  try_catch
    (if String.eqb name "serve" then handleServe
     else if String.eqb name "create" then handleCreate args
     else if String.eqb name "show" then handleShow args
     else if String.eqb name "run" then handleRun args
     else if String.eqb name "pull" then handlePull args
     else if String.eqb name "push" then handlePush args
     else if String.eqb name "list" then handleList
     else if String.eqb name "cp" then handleCopy args
     else if String.eqb name "rm" then handleRemove args
     else if String.eqb name "chat_completion" then handleChatCompletion args
     else throw (McpError MethodNotFound ("Unknown tool: " ++ name)))
    (fun error =>
       if instanceof_McpError error then throw error
       else throw (McpError InternalError
                     ("Error executing " ++ name ++ ": " ++ formatError error))).

(** A tool call as its caller sees it end: with the Envelope returned,
    with the error thrown, or, when the process died, with the error
    nobody caught. *)
Definition CallTool (request : Request) (st : State)
  : (Exn + Envelope) * State :=
  match CallToolRequest request st with
  | (Returned env, st') => (inr env, st')
  | (Raised e, st') => (inl e, st')
  | (Died message, st') => (inl (Error message), st')
  end.

End Server.

(* ================================================================== *)
(** * Properties of a call, and sample worlds and requests *)
(* ================================================================== *)

(** A Fault: an [McpError] whose code is one the specification names and
    whose message is not empty. *)
Definition well_formed_fault (e : Exn) : Prop :=
  exists code message,
    e = McpError code message
    /\ (exists fc, Spec.fault_code code = Some fc)
    /\ message <> "".

(** A stream that fails, fails with a Fault. *)
Definition well_formed_block (b : ContentBlock) : Prop :=
  match b with
  | text_block _ => True
  | stream_block s =>
      match failure s with
      | Some e => well_formed_fault e
      | None => True
      end
  end.

Definition well_formed_envelope (env : Envelope) : Prop :=
  content_of env <> [] /\ Forall well_formed_block (content_of env).

Definition is_text (b : ContentBlock) : Prop := exists t, b = text_block t.

Definition is_stream (b : ContentBlock) : Prop :=
  exists s, b = stream_block s /\ well_formed_block b.

(** The ways a call ends: one block of the expected kind, an
    [InternalError] whose message starts with the handler's own words, or
    the error the process died on. *)
Inductive settled (kind : ContentBlock -> Prop) : Exn + Envelope -> Prop :=
| settled_ok (b : ContentBlock) :
    kind b -> settled kind (inr {| content_of := [b] |})
| settled_fault (prefix detail : string) :
    prefix <> "" ->
    settled kind (inl (McpError InternalError (prefix ++ detail)))
| settled_died (message : string) :
    settled kind (inl (Error message)).

(** The tools that run the [ollama] command. *)
Definition process_backed (name : string) : bool :=
  existsb (String.eqb name)
    ["serve"; "create"; "show"; "pull"; "push"; "list"; "cp"; "rm"].

(** The tools that call the daemon. *)
Definition http_backed (name : string) : bool :=
  existsb (String.eqb name) ["run"; "chat_completion"].

(** The command line each handler builds, read off its template
    literal, and the words its [catch] puts before the error text. *)
Definition command_line (tool_name : string) (a : Args) : Command :=
  if String.eqb tool_name "serve" then "ollama serve"
  else if String.eqb tool_name "create" then
    "ollama create " ++ tmpl (name a) ++ " -f " ++ tmpl (modelfile a)
  else if String.eqb tool_name "show" then
    let command := "ollama show " ++ tmpl (name a) in
    let command :=
      if truthy_string (show_flag a) then command ++ " --" ++ tmpl (show_flag a)
      else command in
    if truthy_bool (verbose a) then command ++ " --verbose" else command
  else if String.eqb tool_name "pull" then "ollama pull " ++ tmpl (name a)
  else if String.eqb tool_name "push" then "ollama push " ++ tmpl (name a)
  else if String.eqb tool_name "list" then "ollama list"
  else if String.eqb tool_name "cp" then
    "ollama cp " ++ tmpl (source a) ++ " " ++ tmpl (destination a)
  else "ollama rm " ++ tmpl (name a).

Definition failure_words (tool_name : string) : string :=
  if String.eqb tool_name "serve" then "Failed to start Ollama server: "
  else if String.eqb tool_name "create" then "Failed to create model: "
  else if String.eqb tool_name "show" then "Failed to show model info: "
  else if String.eqb tool_name "pull" then "Failed to pull model: "
  else if String.eqb tool_name "push" then "Failed to push model: "
  else if String.eqb tool_name "list" then "Failed to list models: "
  else if String.eqb tool_name "cp" then "Failed to copy model: "
  else "Failed to remove model: ".

(** The arguments a process-backed tool reads are there: [serve] and
    [list] read none. *)
Definition arguments_given (request : Request) (a : Args) : Prop :=
  arguments request = Some a
  \/ tool request = "serve"
  \/ tool request = "list".

(** The argument values a process-backed tool puts on its command line
    between spaces. *)
Definition values_read (tool_name : string) (a : Args) : list (option string) :=
  if String.eqb tool_name "create" then [name a; modelfile a]
  else if String.eqb tool_name "cp" then [source a; destination a]
  else if String.eqb tool_name "show" || String.eqb tool_name "pull"
          || String.eqb tool_name "push" || String.eqb tool_name "rm"
  then [name a]
  else [].

(** [v] stands in [cmd] as it is, with nothing but a space on either side
    of it: no quote around it, no backslash in it. *)
Definition interpolated_unescaped (v : string) (cmd : Command) : Prop :=
  exists pre post,
    cmd = pre ++ " " ++ v ++ post
    /\ (post = "" \/ exists rest, post = " " ++ rest).

(** The claim of the specification on one call: a value with a shell
    metacharacter never reaches [exec] unescaped. *)
Definition escapes_or_rejects (w : World) (request : Request) : Prop :=
  forall a v cmd,
    arguments request = Some a ->
    In (Some v) (values_read (tool request) a) ->
    Spec.has_shell_metachar v = true ->
    In (Exec cmd) (trace (snd (CallTool w request initial))) ->
    ~ interpolated_unescaped v cmd.

Definition payload (text : string) : OllamaGenerateResponse :=
  {| r_model := "gemma3:1b"; r_created_at := "2025-06-28T12:36:09Z";
     response := text; done := true |}.

Definition world (e : Command -> ExecOutcome) (p : HttpRequest -> HttpOutcome)
  : World :=
  {| env_OLLAMA_HOST := None;
     exec := e;
     post := p;
     now := fun n => 1751114169242 + 1000 * Z.of_nat n;
     JSON_parse := JsonText.parse |}.

(** Every command prints a line and exits with 0; the daemon answers
    [hi]. *)
Definition calm : World :=
  world (fun _ => ExecResolved "NAME ID SIZE MODIFIED" "")
        (fun _ => HttpResolved (JsonBody (payload "hi"))).

(** Every command exits with 1 after writing [model not found] to its
    standard error. *)
Definition model_missing : World :=
  world (fun cmd => ExecRejected (command_failed cmd "model not found"))
        (fun _ => HttpResolved (JsonBody (payload "hi"))).

Definition pull_request : Request :=
  {| tool := "pull";
     arguments :=
       Some {| name := Some "nomodel"; modelfile := None; show_flag := None;
               verbose := None; prompt := None; timeout := None;
               source := None; destination := None; model := None;
               messages := None; temperature := None; num_predict := None;
               think := None |} |}.

Definition create_args : Args :=
  {| name := Some "m; rm -rf ~"; modelfile := Some "Modelfile";
     show_flag := None; verbose := None; prompt := None; timeout := None;
     source := None; destination := None; model := None; messages := None;
     temperature := None; num_predict := None; think := None |}.

Definition create_request : Request :=
  {| tool := "create"; arguments := Some create_args |}.

(** The request [handleRun] posts. *)
Definition run_request (w : World) (a : Args) : HttpRequest :=
  {| url := OLLAMA_HOST w ++ "/api/generate";
     body := {| b_model := name a; b_prompt := prompt a; b_stream := true;
                b_temperature := None; b_raw := None;
                b_num_predict := None; b_think := None |};
     config := {| c_timeout := or_number (timeout a) DEFAULT_TIMEOUT;
                  c_responseType := Some "stream" |} |}.

(** The request [handleChatCompletion] posts for the messages [msgs]. *)
Definition chat_request (w : World) (a : Args) (msgs : list ChatMessage)
  : HttpRequest :=
  {| url := OLLAMA_HOST w ++ "/api/generate";
     body := {| b_model := model a; b_prompt := Some (flatten msgs);
                b_stream := false; b_temperature := temperature a;
                b_raw := Some true;
                b_num_predict := None; b_think := None |};
     config := {| c_timeout := or_number (timeout a) DEFAULT_TIMEOUT;
                  c_responseType := None |} |}.

(** The message of the Fault for a rejected [axios.post]; [words] are the
    ones the handler uses for an error that is not an [AxiosError]. *)
Definition rejected_message (words : string) (e : Exn) : string :=
  match e with
  | AxiosError response_data_error message =>
      "Ollama API error: " ++ axios_error_text response_data_error message
  | _ => words ++ formatError e
  end.

Definition with_messages (a : Args) (msgs : list ChatMessage) : Args :=
  {| name := name a; modelfile := modelfile a; show_flag := show_flag a;
     verbose := verbose a; prompt := prompt a; timeout := timeout a;
     source := source a; destination := destination a; model := model a;
     messages := Some msgs; temperature := temperature a;
     num_predict := num_predict a; think := think a |}.

Definition chat (a : Args) (msgs : list ChatMessage) : Request :=
  {| tool := "chat_completion"; arguments := Some (with_messages a msgs) |}.

Definition run (a : Args) : Request :=
  {| tool := "run"; arguments := Some a |}.

Definition msg (r c : string) : ChatMessage := {| role := r; content := c |}.

(** The only choice of a result whose message content is [content]. *)
Definition choice (content : Js.value) : Js.value :=
  Js.JObj
    [ ("index", Js.JNum 0);
      ("message",
        Js.JObj [("role", Js.JStr "assistant"); ("content", content)]);
      ("finish_reason", Js.JStr "stop") ].

(** The daemon answers every request with the text [text]. *)
Definition answering (text : string) : World :=
  world (fun _ => ExecResolved "NAME ID SIZE MODIFIED" "")
        (fun _ => HttpResolved (JsonBody (payload text))).

Definition ask : Args :=
  {| name := Some "gemma3:1b"; modelfile := None; show_flag := None;
     verbose := None; prompt := Some "2+2?"; timeout := None; source := None;
     destination := None; model := Some "gemma3:1b"; messages := None;
     temperature := Some (7 # 10); num_predict := None; think := None |}.

Definition two_messages : list ChatMessage :=
  [msg "system" "Be terse"; msg "user" "2+2?"].

(** The claim of the specification on one call: what the caller supplies
    as [temperature] and as [num_predict] is in every request posted. *)
Definition forwards_sampling (w : World) (request : Request) : Prop :=
  forall a req,
    arguments request = Some a ->
    In (Post req) (trace (snd (CallTool w request initial))) ->
    (forall t, temperature a = Some t -> b_temperature (body req) = Some t)
    /\ (forall n, num_predict a = Some n -> b_num_predict (body req) = Some n).

(** The request never gets an answer: axios gives up when the timeout of
    the request has elapsed. *)
Definition stalled : World :=
  world (fun _ => ExecResolved "NAME ID SIZE MODIFIED" "")
        (fun req => HttpRejected (timeout_exceeded (c_timeout (config req)))).

(** The daemon answers with a web stream of [chunks]. *)
Definition streaming (chunks : list Chunk) : World :=
  world (fun _ => ExecResolved "NAME ID SIZE MODIFIED" "")
        (fun _ => HttpResolved (WebStream chunks)).

(** [{"key":value}] as JSON text. *)
Definition fragment (key value : string) : string :=
  "{" ++ Js.quote key ++ ":" ++ value ++ "}".

Definition three_fragments : list string :=
  [ fragment "response" (Js.quote "He");
    fragment "response" (Js.quote "llo");
    fragment "done" "true" ].

(** The error the stream of [run] fails with on a chunk that does not
    decode. *)
Definition stream_fault (e : Exn) : Exn :=
  McpError InternalError ("Error processing stream: " ++ formatError e).

(** [deltas] are what the chunks decode to, one for one and in order. *)
Definition decoded (w : World) (chunks : list string) (deltas : list Js.value)
  : Prop :=
  Forall2 (fun chunk d => delta w chunk = inr d) chunks deltas.

(* ================================================================== *)
(** * The tool catalogue *)
(* ================================================================== *)

(** A JSON schema as the [inputSchema] objects write it: the [type], and
    the keys each one carries; a key that is not written is [None]. *)
Inductive Schema : Type :=
| string_schema (description : option string) (enum : option (list string))
| boolean_schema (description : option string)
| number_schema (description : option string) (minimum maximum : option Z)
| array_schema (items : Schema) (description : option string)
| object_schema (properties : list (string * Schema))
    (required : option (list string)) (additionalProperties : option bool).

Record ToolDescriptor : Type := {
  t_name : string;
  t_description : string;
  inputSchema : Schema
}.

Definition timeout_schema : Schema :=
  number_schema (Some "Timeout in milliseconds (default: 60000)")
    (Some 1000) None.

(** What the handler of [ListToolsRequestSchema] returns as [tools]. *)
Definition tools : list ToolDescriptor :=
  [ {| t_name := "serve";
       t_description := "Start Ollama server";
       inputSchema := object_schema [] None (Some false) |};
    {| t_name := "create";
       t_description := "Create a model from a Modelfile";
       inputSchema :=
         object_schema
           [ ("name", string_schema (Some "Name for the model") None);
             ("modelfile", string_schema (Some "Path to Modelfile") None) ]
           (Some ["name"; "modelfile"]) (Some false) |};
    {| t_name := "show";
       t_description := "Show information for a model";
       inputSchema :=
         object_schema
           [ ("name", string_schema (Some "Name of the model") None);
             ("show_flag",
               string_schema
                 (Some "Flag to show specific information (license, modelfile, parameters, system, template)")
                 (Some ["license"; "modelfile"; "parameters"; "system";
                        "template"]));
             ("verbose",
               boolean_schema (Some "Show detailed model information")) ]
           (Some ["name"]) (Some false) |};
    {| t_name := "run";
       t_description := "Run a model";
       inputSchema :=
         object_schema
           [ ("name", string_schema (Some "Name of the model") None);
             ("prompt",
               string_schema (Some "Prompt to send to the model") None);
             ("timeout", timeout_schema) ]
           (Some ["name"; "prompt"]) (Some false) |};
    {| t_name := "pull";
       t_description := "Pull a model from a registry";
       inputSchema :=
         object_schema
           [ ("name", string_schema (Some "Name of the model to pull") None) ]
           (Some ["name"]) (Some false) |};
    {| t_name := "push";
       t_description := "Push a model to a registry";
       inputSchema :=
         object_schema
           [ ("name", string_schema (Some "Name of the model to push") None) ]
           (Some ["name"]) (Some false) |};
    {| t_name := "list";
       t_description := "List models";
       inputSchema := object_schema [] None (Some false) |};
    {| t_name := "cp";
       t_description := "Copy a model";
       inputSchema :=
         object_schema
           [ ("source", string_schema (Some "Source model name") None);
             ("destination",
               string_schema (Some "Destination model name") None) ]
           (Some ["source"; "destination"]) (Some false) |};
    {| t_name := "rm";
       t_description := "Remove a model";
       inputSchema :=
         object_schema
           [ ("name",
               string_schema (Some "Name of the model to remove") None) ]
           (Some ["name"]) (Some false) |};
    {| t_name := "chat_completion";
       t_description := "OpenAI-compatible chat completion API";
       inputSchema :=
         object_schema
           [ ("model",
               string_schema (Some "Name of the Ollama model to use") None);
             ("messages",
               array_schema
                 (object_schema
                    [ ("role",
                        string_schema None
                          (Some ["system"; "user"; "assistant"]));
                      ("content", string_schema None None) ]
                    (Some ["role"; "content"]) None)
                 (Some "Array of messages in the conversation"));
             ("temperature",
               number_schema (Some "Sampling temperature (0-2)")
                 (Some 0) (Some 2));
             ("timeout", timeout_schema) ]
           (Some ["model"; "messages"]) (Some false) |} ].

(** The names of the properties a schema declares. *)
Definition declared (s : Schema) : list string :=
  match s with
  | object_schema properties _ _ => map fst properties
  | _ => []
  end.

(** The fields a schema requires. *)
Definition required_of (s : Schema) : list string :=
  match s with
  | object_schema _ (Some required) _ => required
  | _ => []
  end.

(** Two argument bags hold the same value under the key [key]. *)
Definition same_field (key : string) (a b : Args) : Prop :=
  if String.eqb key "name" then name a = name b
  else if String.eqb key "modelfile" then modelfile a = modelfile b
  else if String.eqb key "show_flag" then show_flag a = show_flag b
  else if String.eqb key "verbose" then verbose a = verbose b
  else if String.eqb key "prompt" then prompt a = prompt b
  else if String.eqb key "timeout" then timeout a = timeout b
  else if String.eqb key "source" then source a = source b
  else if String.eqb key "destination" then destination a = destination b
  else if String.eqb key "model" then model a = model b
  else if String.eqb key "messages" then messages a = messages b
  else if String.eqb key "temperature" then temperature a = temperature b
  else if String.eqb key "num_predict" then num_predict a = num_predict b
  else if String.eqb key "think" then think a = think b
  else True.

(** The field of an argument bag under the key [key] is absent. *)
Definition field_absent (key : string) (a : Args) : Prop :=
  same_field key a no_args.

(** The events a call added to the trace are [added]. *)
Definition adds (before after : State) (added : list Event) : Prop :=
  trace after = (trace before ++ added)%list.

(** How often [added] reads the clock. *)
Definition clock_reads (added : list Event) : nat :=
  List.length (filter (fun ev => match ev with Now => true | _ => false end)
                 added).

(** The words a Fault message can start with. *)
Definition fault_words : list string :=
  [ "Unknown tool: "; "Failed to start Ollama server: ";
    "Failed to create model: "; "Failed to show model info: ";
    "Failed to run model: "; "Failed to pull model: ";
    "Failed to push model: "; "Failed to list models: ";
    "Failed to copy model: "; "Failed to remove model: ";
    "Ollama API error: "; "Unexpected error: " ].

(** [role] is one of the three that [render] gives a line to. *)
Definition known_role (m : ChatMessage) : bool :=
  String.eqb (role m) "system" || String.eqb (role m) "user"
  || String.eqb (role m) "assistant".

(** A value [JSON.parse] can return that is neither [null] nor an
    object. *)
Definition plain_value (v : Js.value) : bool :=
  match v with
  | Js.JBool _ | Js.JNum _ | Js.JNumLit _ | Js.JStr _ | Js.JArr _ => true
  | _ => false
  end.

(** The chunk [chunk] decodes. *)
Definition decodes (w : World) (chunk : string) : bool :=
  match delta w chunk with
  | inr _ => true
  | inl _ => false
  end.

(* ================================================================== *)
(** * Worlds in which a call goes wrong *)
(* ================================================================== *)

(** The text of the [RangeError] that Node's [setTimeout] throws for a
    number of milliseconds that is negative. *)
Definition out_of_range (ms : Z) : string :=
  "The value of " ++ Js.quote "msecs"
    ++ " is out of range. It must be a non-negative finite number. Received "
    ++ Js.Number_toString ms.

(** Node with axios: a request whose timeout is negative never settles,
    the process dies on the [RangeError]; any other request is answered
    [hi]. *)
Definition node : World :=
  world (fun _ => ExecResolved "NAME ID SIZE MODIFIED" "")
        (fun req =>
           if c_timeout (config req) <? 0
           then HttpUncaught (out_of_range (c_timeout (config req)))
           else HttpResolved (JsonBody (payload "hi"))).

(** The arguments [ask] with a timeout of -5 ms. *)
Definition hurried : Args :=
  {| name := Some "gemma3:1b"; modelfile := None; show_flag := None;
     verbose := None; prompt := Some "2+2?"; timeout := Some (-5);
     source := None; destination := None; model := Some "gemma3:1b";
     messages := None; temperature := Some (7 # 10); num_predict := None;
     think := None |}.

(** The clock does not move between two readings. *)
Definition frozen : World :=
  {| env_OLLAMA_HOST := None;
     exec := fun _ => ExecResolved "NAME ID SIZE MODIFIED" "";
     post := fun _ => HttpResolved (JsonBody (payload "4"));
     now := fun _ => 1751114169242;
     JSON_parse := JsonText.parse |}.

(** The three fragments as the chunks of bytes that a web stream
    delivers. *)
Definition three_chunks : list Chunk := map Uint8Array three_fragments.

(** Under Node the body that axios delivers for [responseType: 'stream']
    is a Node stream. *)
Definition node_streaming (chunks : list string) : World :=
  world (fun _ => ExecResolved "NAME ID SIZE MODIFIED" "")
        (fun _ => HttpResolved (NodeStream chunks)).

(** The backend call [ev] was rejected. *)
Definition rejected (w : World) (ev : Event) : Prop :=
  match ev with
  | Exec cmd => exists e, exec w cmd = ExecRejected e
  | Post req => exists e, post w req = HttpRejected e
  | Now => False
  end.

(** The backend call [ev] never settled and the process died. *)
Definition uncaught (w : World) (ev : Event) : Prop :=
  match ev with
  | Post req => exists message, post w req = HttpUncaught message
  | _ => False
  end.

(** The end [r] of a call that made the backend calls [added] accounts for
    each of them: a backend call that was rejected, and a call that
    reached no backend, end in a Fault; an Envelope is well formed; and
    an error that is no Fault is the one the process died on. *)
Definition accounted (w : World) (r : Exn + Envelope) (added : list Event)
  : Prop :=
  (forall ev, In ev added -> rejected w ev ->
     exists e, r = inl e /\ well_formed_fault e)
  /\ (added = [] -> exists e, r = inl e /\ well_formed_fault e)
  /\ (forall env, r = inr env -> well_formed_envelope env)
  /\ (forall e, r = inl e ->
        well_formed_fault e \/ exists ev, In ev added /\ uncaught w ev).

(* ================================================================== *)
(** * Facts about strings and numerals *)
(* ================================================================== *)

Lemma Str_append_assoc (a b c : string) : (a ++ b) ++ c = a ++ (b ++ c).
Proof. induction a as [|x a IH]; simpl; [reflexivity | now rewrite IH]. Qed.

Lemma Str_append_nil_r (a : string) : a ++ "" = a.
Proof. induction a as [|x a IH]; simpl; [reflexivity | now rewrite IH]. Qed.

Lemma Str_append_inj_l (p a b : string) : p ++ a = p ++ b -> a = b.
Proof.
  induction p as [|x p IH]; simpl; intros H; [exact H|].
  injection H as H. now apply IH.
Qed.

Lemma Str_append_nonempty_l (p a : string) : p <> "" -> p ++ a <> "".
Proof. destruct p; simpl; [congruence | discriminate]. Qed.

Lemma Str_contains_refl (s : string) : Str.contains s s.
Proof. exists "", "". simpl. now rewrite Str_append_nil_r. Qed.

Lemma Str_contains_app_r (n p s : string) : Str.contains n s -> Str.contains n (p ++ s).
Proof.
  intros (a & b & ->). exists (p ++ a), b. now rewrite Str_append_assoc.
Qed.

Lemma Str_contains_app_l (n s q : string) : Str.contains n s -> Str.contains n (s ++ q).
Proof.
  intros (a & b & ->). exists a, (b ++ q). now rewrite !Str_append_assoc.
Qed.

Lemma Str_contains_trans (a b c : string) :
  Str.contains a b -> Str.contains b c -> Str.contains a c.
Proof.
  intros (p & q & ->) (p' & q' & ->).
  exists (p' ++ p), (q ++ q'). now rewrite !Str_append_assoc.
Qed.

Lemma Number_toString_inj (a b : Z) :
  Js.Number_toString a = Js.Number_toString b -> a = b.
Proof.
  unfold Js.Number_toString. intros H.
  apply DecimalZ.to_int_inj.
  assert (E : Some (Z.to_int a) = Some (Z.to_int b))
    by (rewrite <- !NilEmpty.isi; now rewrite H).
  now injection E.
Qed.

(* ================================================================== *)
(** * The calls, tool by tool *)
(* ================================================================== *)

Ltac run_tool :=
  unfold CallTool, CallToolRequest;
  cbn [tool arguments String.eqb Ascii.eqb Bool.eqb];
  cbv beta iota;
  unfold handleServe, handleCreate, handleShow, handleRun, handlePull,
    handlePush, handleList, handleCopy, handleRemove, handleChatCompletion,
    try_catch, bind, prop, map_join, execAsync, axios_post, pipeThrough,
    Date_now, ret, throw;
  cbv beta iota.

Lemma process_backed_cases (name : string) :
  process_backed name = true ->
  name = "serve" \/ name = "create" \/ name = "show" \/ name = "pull"
  \/ name = "push" \/ name = "list" \/ name = "cp" \/ name = "rm".
Proof.
  unfold process_backed, existsb.
  repeat match goal with
    | |- context [String.eqb name ?l] =>
        destruct (String.eqb_spec name l) as [->|_]; [tauto|]
    end.
  cbn [orb]. discriminate.
Qed.

(** A process-backed tool runs its command line once, and ends as the
    command ends. *)
Lemma process_backed_call (w : World) (request : Request) (a : Args)
  (st : State) :
  process_backed (tool request) = true ->
  arguments_given request a ->
  CallTool w request st
  = (match exec w (command_line (tool request) a) with
     | ExecResolved stdout stderr => inr (text_result (stdout, stderr))
     | ExecRejected e =>
         inl (McpError InternalError
                (failure_words (tool request) ++ formatError e))
     end,
     record (Exec (command_line (tool request) a)) st).
Proof.
  destruct request as [name args]. unfold arguments_given. cbn [tool arguments].
  intros Hp Ha.
  apply process_backed_cases in Hp.
  destruct Hp as [-> | [-> | [-> | [-> | [-> | [-> | [-> | ->]]]]]]];
    try (destruct Ha as [-> | [Ha | Ha]]; [|discriminate Ha|discriminate Ha]);
    run_tool;
    unfold command_line, failure_words;
    cbn [String.eqb Ascii.eqb Bool.eqb]; cbv beta iota.
  all: try (destruct (truthy_string (show_flag a));
            destruct (truthy_bool (verbose a))).
  all: match goal with
       | |- context [exec ?w' ?c] => destruct (exec w' c); reflexivity
       end.
Qed.

(** [run] posts one request and wraps the body of the answer. *)
Lemma run_call (w : World) (a : Args) (st : State) :
  CallTool w (run a) st
  = (match post w (run_request w a) with
     | HttpResolved (WebStream chunks) =>
         inr {| content_of :=
                  [stream_block (piped w (map Chunk_toString chunks) fresh)] |}
     | HttpResolved _ =>
         inl (McpError InternalError
                ("Failed to run model: "
                   ++ "response.data.pipeThrough is not a function"))
     | HttpRejected e =>
         inl (McpError InternalError
                (rejected_message "Failed to run model: "
                   (delivered (config (run_request w a)) e)))
     | HttpUncaught message => inl (Error message)
     end,
     record (Post (run_request w a)) st).
Proof.
  unfold run. run_tool. unfold run_request.
  destruct (post w _) as [[p|chunks|chunks]|e|message];
    try destruct e; reflexivity.
Qed.

(** [chat_completion] posts one request, reads the clock twice and wraps
    the answer. *)
Lemma chat_call (w : World) (a : Args) (msgs : list ChatMessage) (st : State) :
  CallTool w (chat a msgs) st
  = match post w (chat_request w a msgs) with
    | HttpResolved data =>
        (inr {| content_of :=
                  [text_block
                     (stringify_object
                        (chat_completion (now w (reads st))
                           (now w (S (reads st))) (model a)
                           (data_response data)))] |},
         {| trace := trace st ++ [Post (chat_request w a msgs); Now; Now];
            reads := S (S (reads st)) |})
    | HttpRejected e =>
        (inl (McpError InternalError (rejected_message "Unexpected error: " e)),
         record (Post (chat_request w a msgs)) st)
    | HttpUncaught message =>
        (inl (Error message), record (Post (chat_request w a msgs)) st)
    end.
Proof.
  unfold chat. run_tool.
  unfold chat_request, with_messages, record.
  cbn [messages model temperature timeout]. cbv beta iota.
  destruct (post w _) as [data|e|message]; cbn [trace reads];
    rewrite <- ?app_assoc; try destruct e; reflexivity.
Qed.

(** [chat_completion] on any argument bag. *)
Lemma chat_call_any (w : World) (a : Args) (st : State) :
  CallTool w {| tool := "chat_completion"; arguments := Some a |} st
  = match messages a with
    | Some msgs => CallTool w (chat a msgs) st
    | None =>
        (inl (McpError InternalError
                ("Unexpected error: "
                   ++ "Cannot read properties of undefined (reading 'map')")),
         st)
    end.
Proof.
  destruct a as [n mf sf v p t s d m msgs temp np th].
  destruct msgs as [msgs|]; reflexivity.
Qed.

Lemma unknown_tool_call (w : World) (name : string) (args : option Args)
  (st : State) :
  ~ In name (map t_name tools) ->
  CallTool w {| tool := name; arguments := args |} st
  = (inl (McpError MethodNotFound ("Unknown tool: " ++ name)), st).
Proof.
  cbn [map tools t_name In]. intros Hout.
  unfold CallTool, CallToolRequest. cbn [tool arguments].
  repeat match goal with
    | |- context [String.eqb name ?l] =>
        destruct (String.eqb_spec name l) as [Heq|_];
        [exfalso; apply Hout; rewrite Heq; tauto|]
    end.
  reflexivity.
Qed.

(** The tools whose handler reads [args]. *)
Lemma no_arguments_call (w : World) (name : string) (st : State) :
  In name ["create"; "show"; "run"; "pull"; "push"; "cp"; "rm";
           "chat_completion"] ->
  exists words detail,
    In words fault_words
    /\ CallTool w {| tool := name; arguments := None |} st
       = (inl (McpError InternalError (words ++ detail)), st).
Proof.
  cbn [In].
  intros [<- | [<- | [<- | [<- | [<- | [<- | [<- | [<- | []]]]]]]]].
  - exists "Failed to create model: ". eexists.
    split; [cbn; tauto | reflexivity].
  - exists "Failed to show model info: ". eexists.
    split; [cbn; tauto | reflexivity].
  - exists "Failed to run model: ". eexists.
    split; [cbn; tauto | reflexivity].
  - exists "Failed to pull model: ". eexists.
    split; [cbn; tauto | reflexivity].
  - exists "Failed to push model: ". eexists.
    split; [cbn; tauto | reflexivity].
  - exists "Failed to copy model: ". eexists.
    split; [cbn; tauto | reflexivity].
  - exists "Failed to remove model: ". eexists.
    split; [cbn; tauto | reflexivity].
  - exists "Unexpected error: ". eexists.
    split; [cbn; tauto | reflexivity].
Qed.

Lemma fault_words_not_empty (words : string) :
  In words fault_words -> words <> "".
Proof.
  cbn [fault_words In]. intros H.
  repeat (destruct H as [<- | H]; [discriminate|]). contradiction.
Qed.

(** A transform stream fails only with the [McpError] of [transform]. *)
Lemma piped_failure (w : World) chunks controller :
  failure controller = None ->
  match failure (piped w chunks controller) with
  | Some e =>
      exists detail,
        e = McpError InternalError ("Error processing stream: " ++ detail)
  | None => True
  end.
Proof.
  revert controller.
  induction chunks as [|chunk rest IH]; intros controller Hc; simpl.
  - now rewrite Hc.
  - unfold transform. destruct (delta w chunk) as [error|d]; simpl.
    + now eexists.
    + rewrite Hc. apply IH. exact Hc.
Qed.

Lemma piped_well_formed (w : World) chunks :
  well_formed_block (stream_block (piped w chunks fresh)).
Proof.
  cbn [well_formed_block].
  pose proof (piped_failure w chunks fresh eq_refl) as H.
  destruct (failure (piped w chunks fresh)); [|exact I].
  destruct H as [detail ->].
  exists InternalError, ("Error processing stream: " ++ detail).
  repeat split; [now eexists | discriminate].
Qed.

(** How a rejected request of [run] or [chat_completion] ends. *)
Lemma rejected_settled kind (words : string) (e : Exn) :
  words <> "" ->
  settled kind (inl (McpError InternalError (rejected_message words e))).
Proof.
  intros Hw. destruct e; cbn [rejected_message]; now apply settled_fault.
Qed.

Ltac settled_command w name a st :=
  rewrite (process_backed_call w {| tool := name; arguments := _ |} a st)
    by (reflexivity || (now left) || (right; cbn; tauto));
  cbn [fst tool];
  destruct (exec w (command_line name a)) as [out err|e];
  [ apply settled_ok; now eexists
  | apply settled_fault; cbn; discriminate ].

Ltac settled_no_call w name st :=
  let H := fresh in
  destruct (no_arguments_call w name st ltac:(cbn; tauto))
    as (words & detail & Hw & H);
  rewrite H; cbn [fst];
  apply settled_fault; now apply fault_words_not_empty.

(** The dispatcher ends as the handler it routes to ends; a name that is
    none of the ten tools ends in [MethodNotFound]. *)
Lemma CallTool_outcome (w : World) (request : Request) (st : State) :
  (tool request = "run"
   /\ settled is_stream (fst (CallTool w request st)))
  \/ (tool request <> "run"
      /\ (process_backed (tool request) = true
          \/ tool request = "chat_completion")
      /\ settled is_text (fst (CallTool w request st)))
  \/ (process_backed (tool request) = false
      /\ http_backed (tool request) = false
      /\ fst (CallTool w request st)
         = inl (McpError MethodNotFound ("Unknown tool: " ++ tool request))).
Proof.
  destruct request as [name args]. cbn [tool].
  destruct (in_dec string_dec name (map t_name tools)) as [Hin|Hout].
  2:{ right; right. rewrite (unknown_tool_call w name args st Hout).
      cbn [map tools t_name In] in Hout.
      unfold process_backed, http_backed, existsb.
      repeat match goal with
        | |- context [String.eqb name ?l] =>
            destruct (String.eqb_spec name l) as [Heq|_];
            [exfalso; apply Hout; rewrite Heq; tauto|]
        end.
      repeat split. }
  cbn [map tools t_name In] in Hin.
  destruct Hin as [<- | [<- | [<- | [<- | [<- | [<- | [<- | [<- | [<- | [<- | []]]]]]]]]]];
    destruct args as [a|].
  - right; left. repeat split; [discriminate | now left |].
    settled_command w "serve" a st.
  - right; left. repeat split; [discriminate | now left |].
    settled_command w "serve" no_args st.
  - right; left. repeat split; [discriminate | now left |].
    settled_command w "create" a st.
  - right; left. repeat split; [discriminate | now left |].
    settled_no_call w "create" st.
  - right; left. repeat split; [discriminate | now left |].
    settled_command w "show" a st.
  - right; left. repeat split; [discriminate | now left |].
    settled_no_call w "show" st.
  - left. split; [reflexivity|].
    change {| tool := "run"; arguments := Some a |} with (run a).
    rewrite run_call. cbn [fst].
    destruct (post w (run_request w a)) as [[p|chunks|chunks]|e|message].
    + apply settled_fault. discriminate.
    + apply settled_ok. eexists. split; [reflexivity|].
      apply piped_well_formed.
    + apply settled_fault. discriminate.
    + apply rejected_settled. discriminate.
    + apply settled_died.
  - left. split; [reflexivity|]. settled_no_call w "run" st.
  - right; left. repeat split; [discriminate | now left |].
    settled_command w "pull" a st.
  - right; left. repeat split; [discriminate | now left |].
    settled_no_call w "pull" st.
  - right; left. repeat split; [discriminate | now left |].
    settled_command w "push" a st.
  - right; left. repeat split; [discriminate | now left |].
    settled_no_call w "push" st.
  - right; left. repeat split; [discriminate | now left |].
    settled_command w "list" a st.
  - right; left. repeat split; [discriminate | now left |].
    settled_command w "list" no_args st.
  - right; left. repeat split; [discriminate | now left |].
    settled_command w "cp" a st.
  - right; left. repeat split; [discriminate | now left |].
    settled_no_call w "cp" st.
  - right; left. repeat split; [discriminate | now left |].
    settled_command w "rm" a st.
  - right; left. repeat split; [discriminate | now left |].
    settled_no_call w "rm" st.
  - right; left. repeat split; [discriminate | now right |].
    rewrite chat_call_any.
    destruct (messages a) as [msgs|].
    + rewrite chat_call.
      destruct (post w (chat_request w a msgs)) as [data|e|message];
        cbn [fst].
      * apply settled_ok. now eexists.
      * apply rejected_settled. discriminate.
      * apply settled_died.
    + cbn [fst]. apply settled_fault. discriminate.
  - right; left. repeat split; [discriminate | now right |].
    settled_no_call w "chat_completion" st.
Qed.

Lemma is_text_well_formed b : is_text b -> well_formed_block b.
Proof. now intros [t ->]. Qed.

Lemma is_stream_well_formed b : is_stream b -> well_formed_block b.
Proof. now intros (s & _ & H). Qed.

(* ================================================================== *)
(** * C1: a failure that leaves the dispatcher as no Fault *)
(* ================================================================== *)

(** C1. The code does not turn every failure into a Fault. A
    [chat_completion] or a [run] called with a timeout of -5 ms hands that
    timeout to axios as it is ([args.timeout || DEFAULT_TIMEOUT] keeps any
    number but 0); under Node the request then never settles, the
    [RangeError] of the timer is thrown outside the promise that the
    handler awaits, neither the [catch] of the handler nor the one of the
    dispatcher sees it, and the call ends with that error, which is no
    Fault, in place of an Envelope or an [McpError]. *)
Theorem C1_negative_timeout_is_not_caught :
  c_timeout (config (chat_request node hurried two_messages)) = -5
  /\ CallTool node (chat hurried two_messages) initial
     = (inl (Error (out_of_range (-5))),
        record (Post (chat_request node hurried two_messages)) initial)
  /\ CallTool node (run hurried) initial
     = (inl (Error (out_of_range (-5))),
        record (Post (run_request node hurried)) initial)
  /\ ~ well_formed_fault (Error (out_of_range (-5))).
Proof.
  split; [reflexivity|]. split; [reflexivity|]. split; [reflexivity|].
  intros (code & message & H & _). discriminate H.
Qed.

(* ================================================================== *)
(** * C10: one content block per successful call *)
(* ================================================================== *)

(** C10. When a tool call returns, its Envelope holds exactly one content
    block: a stream block when the tool is [run], a text block for the
    eight tools that run the [ollama] command and for [chat_completion].
    An unknown tool name never returns. *)
Theorem C10_one_block_per_envelope :
  forall (w : World) (request : Request) (st : State) (env : Envelope),
    fst (CallTool w request st) = inr env ->
    exists b,
      content_of env = [b]
      /\ (tool request = "run" -> exists s, b = stream_block s)
      /\ (tool request <> "run" ->
          (exists t, b = text_block t)
          /\ (process_backed (tool request) = true
              \/ tool request = "chat_completion")).
Proof.
  intros w request st env Henv.
  destruct (CallTool_outcome w request st)
    as [[Hn H] | [(Hn & Hk & H) | (_ & _ & H)]];
    rewrite Henv in H.
  - inversion H as [b [s [-> _]] Hb| |]; subst.
    exists (stream_block s).
    split; [reflexivity | split; [now eexists | congruence]].
  - inversion H as [b [t ->] Hb| |]; subst.
    exists (text_block t).
    split; [reflexivity | split; [congruence|]].
    intros _. split; [now eexists | exact Hk].
  - discriminate.
Qed.

Lemma C10_witness :
  exists b,
    content_of (text_result ("NAME ID SIZE MODIFIED", "")) = [b]
    /\ exists t, b = text_block t.
Proof.
  destruct (C10_one_block_per_envelope calm
              {| tool := "list"; arguments := None |} initial
              (text_result ("NAME ID SIZE MODIFIED", "")) eq_refl)
    as (b & Hb & _ & Ht).
  exists b. split; [exact Hb|].
  apply Ht. discriminate.
Defined.

(* ================================================================== *)
(** * C3: a failing subprocess *)
(* ================================================================== *)

(** C3, as the specification states it, fails: a [pull] whose command
    exits with 1 and writes [model not found] to its standard error ends in
    a Fault whose message contains that text, but whose code is
    [InternalError], which is [internal_error] and not [backend_error]. *)
Lemma C3_counterexample :
  exists code message,
    fst (CallTool model_missing pull_request initial)
    = inl (McpError code message)
    /\ Str.contains "model not found" message
    /\ Spec.fault_code code <> Some Spec.backend_error.
Proof.
  exists InternalError,
    ("Failed to pull model: Command failed: ollama pull nomodel"
       ++ Js.newline ++ "model not found").
  split; [reflexivity|]. split; [|discriminate].
  exists ("Failed to pull model: Command failed: ollama pull nomodel"
            ++ Js.newline), "".
  reflexivity.
Qed.

(** C3, amended. For each of the eight tools that run the [ollama]
    command, when the command is rejected (it exits with a code other than
    0, or it cannot be spawned) with the error [e], the call ends in one
    Fault: its code is [InternalError], and its message is the words of the
    tool followed by the text of [e], so that it contains that text; when
    [e] is the rejection that Node builds for a failed command, the message
    contains what the command wrote to its standard error. *)
Theorem C3_failed_command_is_internal_error :
  forall (w : World) (request : Request) (a : Args) (st : State) (e : Exn),
    process_backed (tool request) = true ->
    arguments_given request a ->
    exec w (command_line (tool request) a) = ExecRejected e ->
    exists message,
      fst (CallTool w request st) = inl (McpError InternalError message)
      /\ message = failure_words (tool request) ++ formatError e
      /\ Spec.fault_code InternalError = Some Spec.internal_error
      /\ Str.contains (formatError e) message
      /\ forall stderr,
           e = command_failed (command_line (tool request) a) stderr ->
           Str.contains stderr message.
Proof.
  intros w request a st e Hp Ha He.
  rewrite (process_backed_call w request a st Hp Ha), He. cbn [fst].
  eexists. split; [reflexivity|]. split; [reflexivity|].
  split; [reflexivity|]. split.
  - apply Str_contains_app_r, Str_contains_refl.
  - intros stderr ->. apply Str_contains_app_r. cbn [formatError command_failed].
    rewrite <- Str_append_assoc, <- Str_append_assoc.
    apply Str_contains_app_r, Str_contains_refl.
Qed.

Lemma C3_witness :
  exists message,
    fst (CallTool model_missing pull_request initial)
    = inl (McpError InternalError message)
    /\ message
       = failure_words (tool pull_request)
           ++ formatError (command_failed "ollama pull nomodel" "model not found")
    /\ Spec.fault_code InternalError = Some Spec.internal_error
    /\ Str.contains
         (formatError (command_failed "ollama pull nomodel" "model not found"))
         message
    /\ forall stderr,
         command_failed "ollama pull nomodel" "model not found"
         = command_failed
             (command_line (tool pull_request)
                {| name := Some "nomodel"; modelfile := None;
                   show_flag := None; verbose := None; prompt := None;
                   timeout := None; source := None; destination := None;
                   model := None; messages := None; temperature := None;
                   num_predict := None; think := None |}) stderr ->
         Str.contains stderr message.
Proof.
  apply (C3_failed_command_is_internal_error model_missing pull_request _
           initial (command_failed "ollama pull nomodel" "model not found")).
  - reflexivity.
  - left. reflexivity.
  - reflexivity.
Defined.

(* ================================================================== *)
(** * C2: argument values on the command line *)
(* ================================================================== *)

(** C2, as the specification states it, fails: [create] with the name
    [m; rm -rf ~] hands [exec] the command line
    [ollama create m; rm -rf ~ -f Modelfile]; the name has shell
    metacharacters, the call is not rejected, and the name stands in the
    command line unescaped. *)
Lemma C2_counterexample : ~ escapes_or_rejects calm create_request.
Proof.
  intros H.
  apply (H create_args "m; rm -rf ~" "ollama create m; rm -rf ~ -f Modelfile").
  - reflexivity.
  - left. reflexivity.
  - reflexivity.
  - left. reflexivity.
  - exists "ollama create", " -f Modelfile". split; [reflexivity|].
    right. now exists "-f Modelfile".
Qed.

Ltac unescaped pre post :=
  exists pre, post;
  split;
  [ rewrite ?Str_append_assoc, ?Str_append_nil_r; reflexivity
  | first [now left | right; now eexists] ].

(** C2, amended. For each tool that runs the [ollama] command with
    arguments, every value it reads ([name] and [modelfile] of [create],
    [source] and [destination] of [cp], [name] of [show], [pull], [push] and
    [rm]) stands in the one command line handed to [exec] as the caller sent
    it, between spaces, whatever characters it holds: nothing is escaped
    and no call is rejected before [exec] runs. *)
Theorem C2_values_reach_exec_unescaped :
  forall (w : World) (request : Request) (a : Args) (st : State) (v : string),
    process_backed (tool request) = true ->
    arguments request = Some a ->
    In (Some v) (values_read (tool request) a) ->
    exists cmd,
      trace (snd (CallTool w request st)) = (trace st ++ [Exec cmd])%list
      /\ cmd = command_line (tool request) a
      /\ interpolated_unescaped v cmd.
Proof.
  intros w request a st v Hp Ha Hv.
  rewrite (process_backed_call w request a st Hp (or_introl Ha)).
  exists (command_line (tool request) a).
  split; [reflexivity|]. split; [reflexivity|].
  apply process_backed_cases in Hp.
  destruct Hp as [Hp | [Hp | [Hp | [Hp | [Hp | [Hp | [Hp | Hp]]]]]]];
    rewrite Hp in Hv |- *; cbn in Hv; unfold command_line;
    cbn [String.eqb Ascii.eqb Bool.eqb]; cbv beta iota zeta.
  - contradiction.
  - destruct Hv as [Hv | [Hv | []]]; rewrite Hv; cbn [tmpl].
    + unescaped "ollama create" (" -f " ++ tmpl (modelfile a)).
    + unescaped ("ollama create " ++ tmpl (name a) ++ " -f") "".
  - destruct Hv as [Hv | []]; rewrite Hv; cbn [tmpl].
    destruct (truthy_string (show_flag a)), (truthy_bool (verbose a)).
    + unescaped "ollama show" (" --" ++ tmpl (show_flag a) ++ " --verbose").
    + unescaped "ollama show" (" --" ++ tmpl (show_flag a)).
    + unescaped "ollama show" " --verbose".
    + unescaped "ollama show" "".
  - destruct Hv as [Hv | []]; rewrite Hv. unescaped "ollama pull" "".
  - destruct Hv as [Hv | []]; rewrite Hv. unescaped "ollama push" "".
  - contradiction.
  - destruct Hv as [Hv | [Hv | []]]; rewrite Hv; cbn [tmpl].
    + unescaped "ollama cp" (" " ++ tmpl (destination a)).
    + unescaped ("ollama cp " ++ tmpl (source a)) "".
  - destruct Hv as [Hv | []]; rewrite Hv. unescaped "ollama rm" "".
Qed.

Lemma C2_witness :
  exists cmd,
    trace (snd (CallTool calm create_request initial))
    = (trace initial ++ [Exec cmd])%list
    /\ cmd = command_line (tool create_request) create_args
    /\ interpolated_unescaped "m; rm -rf ~" cmd.
Proof.
  apply (C2_values_reach_exec_unescaped calm create_request create_args
           initial "m; rm -rf ~").
  - reflexivity.
  - reflexivity.
  - left. reflexivity.
Defined.

(* ================================================================== *)
(** * The tools that call the daemon *)
(* ================================================================== *)

Lemma flatten_app (front back : list ChatMessage) :
  flatten (front ++ back) = flatten front ++ flatten back.
Proof.
  unfold flatten. induction front as [|m front IH]; simpl; [reflexivity|].
  now rewrite IH, Str_append_assoc.
Qed.

Lemma render_other (r c : string) :
  In r ["system"; "user"; "assistant"] \/ render (msg r c) = "".
Proof.
  unfold render, msg. cbn [role content].
  destruct (String.eqb_spec r "system") as [->|_]; [left; now left|].
  destruct (String.eqb_spec r "user") as [->|_]; [left; right; now left|].
  destruct (String.eqb_spec r "assistant") as [->|_];
    [left; right; right; now left|].
  now right.
Qed.

(* ================================================================== *)
(** * C6: the flattened prompt *)
(* ================================================================== *)

(** C6. The prompt of a message list is the concatenation, in list order,
    of what each message contributes: [System: <content>], [User: <content>]
    or [Assistant: <content>] followed by a line feed for the three roles,
    and the empty string for a message of any other role; it is the prompt
    of the one request [chat_completion] posts, whatever the roles are.
    The two messages of the example flatten to
    [System: Be terse\nUser: 2+2?\n]. *)
Theorem C6_flattened_prompt :
  forall (w : World) (a : Args) (front back : list ChatMessage)
         (r c : string) (st : State),
    flatten (front ++ back) = flatten front ++ flatten back
    /\ flatten [] = ""
    /\ flatten [msg "system" c] = "System: " ++ c ++ Js.newline
    /\ flatten [msg "user" c] = "User: " ++ c ++ Js.newline
    /\ flatten [msg "assistant" c] = "Assistant: " ++ c ++ Js.newline
    /\ (In r ["system"; "user"; "assistant"] \/ flatten [msg r c] = "")
    /\ flatten [msg "system" "Be terse"; msg "user" "2+2?"]
       = "System: Be terse" ++ Js.newline ++ "User: 2+2?" ++ Js.newline
    /\ (exists req later,
          trace (snd (CallTool w (chat a front) st))
          = (trace st ++ Post req :: later)%list
          /\ b_prompt (body req) = Some (flatten front)).
Proof.
  intros w a front back r c st.
  split; [apply flatten_app|].
  split; [reflexivity|].
  split; [unfold flatten; simpl; now rewrite Str_append_nil_r|].
  split; [unfold flatten; simpl; now rewrite Str_append_nil_r|].
  split; [unfold flatten; simpl; now rewrite Str_append_nil_r|].
  split.
  { destruct (render_other r c) as [H|H]; [now left | right].
    unfold flatten. simpl. now rewrite H. }
  split; [reflexivity|].
  exists (chat_request w a front).
  rewrite chat_call.
  destruct (post w (chat_request w a front)) as [data|e|message];
    cbn [snd trace].
  - exists [Now; Now]. split; reflexivity.
  - exists []. split; reflexivity.
  - exists []. split; reflexivity.
Qed.

(* ================================================================== *)
(** * C7: the chat-completion result *)
(* ================================================================== *)

Lemma lookup_model t1 t2 m c :
  Js.lookup "model" (chat_completion t1 t2 m c) = js_string m.
Proof. now destruct m. Qed.

(** C7, as the specification states it, fails: the integer of the id is
    the reading of the clock, and it is not distinct from one call to the
    next when the clock has not moved. Two calls made one after the other
    under a clock that stands still return results with the same id,
    [chatcmpl-1751114169242]. *)
Lemma C7_counterexample :
  exists result result' st',
    CallTool frozen (chat ask two_messages) initial
    = (inr {| content_of := [text_block (stringify_object result)] |}, st')
    /\ fst (CallTool frozen (chat ask two_messages) st')
       = inr {| content_of := [text_block (stringify_object result')] |}
    /\ Js.lookup "id" result = Js.JStr "chatcmpl-1751114169242"
    /\ Js.lookup "id" result' = Js.lookup "id" result.
Proof.
  eexists. eexists. eexists.
  split; [reflexivity|]. split; [reflexivity|]. split; reflexivity.
Qed.

(** C7, amended. When the daemon answers a [chat_completion] call, the
    call returns one text block holding [JSON.stringify(result, null, 2)]
    of a result whose [id] is [chatcmpl-] followed by the reading of the
    clock in milliseconds, so that the results of two calls have the same
    id exactly when their readings of the clock are the same; whose
    [created] is the next reading in whole seconds; whose [model] is the
    model the caller named; and whose [choices] is one choice with index 0,
    the role [assistant], the text the daemon generated as content, and the
    finish reason [stop]. *)
Theorem C7_chat_completion_result :
  forall (w : World) (a : Args) (msgs : list ChatMessage) (st : State)
         (p : OllamaGenerateResponse),
    post w (chat_request w a msgs) = HttpResolved (JsonBody p) ->
    exists result,
      fst (CallTool w (chat a msgs) st)
      = inr {| content_of := [text_block (stringify_object result)] |}
      /\ Js.JSON_stringify (Js.JObj result) = Some (stringify_object result)
      /\ Js.lookup "id" result
         = Js.JStr ("chatcmpl-" ++ Js.Number_toString (now w (reads st)))
      /\ (forall a' msgs' st' p',
            post w (chat_request w a' msgs') = HttpResolved (JsonBody p') ->
            exists result',
              fst (CallTool w (chat a' msgs') st')
              = inr {| content_of :=
                         [text_block (stringify_object result')] |}
              /\ (Js.lookup "id" result = Js.lookup "id" result'
                  <-> now w (reads st) = now w (reads st')))
      /\ (exists seconds,
            Js.lookup "created" result = Js.JNum seconds
            /\ 1000 * seconds <= now w (S (reads st)) < 1000 * seconds + 1000)
      /\ Js.lookup "model" result = js_string (model a)
      /\ Js.lookup "choices" result = Js.JArr [choice (Js.JStr (response p))].
Proof.
  intros w a msgs st p Hpost.
  rewrite chat_call, Hpost. cbn [fst data_response].
  assert (Hid : forall t t2 m c,
             Js.lookup "id" (chat_completion t t2 m c)
             = Js.JStr ("chatcmpl-" ++ Js.Number_toString t))
    by (intros t t2 m c; now destruct m).
  eexists. split; [reflexivity|].
  split; [reflexivity|].
  split; [apply Hid|].
  split.
  { intros a' msgs' st' p' Hpost'.
    rewrite chat_call, Hpost'. cbn [fst data_response].
    eexists. split; [reflexivity|].
    rewrite !Hid. split.
    - intros Heq. injection Heq as Heq. now apply Number_toString_inj.
    - now intros ->. }
  split.
  { exists (now w (S (reads st)) / 1000).
    split; [now destruct (model a)|].
    pose proof (Z.div_mod (now w (S (reads st))) 1000 ltac:(lia)) as Hd.
    pose proof (Z.mod_pos_bound (now w (S (reads st))) 1000 ltac:(lia)) as Hm.
    lia. }
  split; [apply lookup_model | reflexivity].
Qed.

Lemma C7_witness :
  exists result,
    fst (CallTool (answering "4") (chat ask two_messages) initial)
    = inr {| content_of := [text_block (stringify_object result)] |}
    /\ Js.lookup "choices" result = Js.JArr [choice (Js.JStr "4")].
Proof.
  destruct (C7_chat_completion_result (answering "4") ask two_messages initial
              (payload "4") eq_refl)
    as (result & Hcall & _ & _ & _ & _ & _ & Hchoices).
  exists result. split; assumption.
Defined.

(* ================================================================== *)
(** * C9: the buffered call *)
(* ================================================================== *)

(** C9, as the specification states it, fails: when the daemon answers
    [{response: "hi", done: true}], the text block of the Envelope is not
    [hi] but the serialised chat-completion result that carries [hi] as the
    content of its choice. *)
Lemma C9_counterexample :
  fst (CallTool (answering "hi") (chat ask two_messages) initial)
  = inr {| content_of :=
             [text_block
                (stringify_object
                   (chat_completion 1751114169242 1751114170242
                      (Some "gemma3:1b") (Some "hi")))] |}
  /\ fst (CallTool (answering "hi") (chat ask two_messages) initial)
     <> inr {| content_of := [text_block "hi"] |}.
Proof.
  split; [reflexivity|].
  intros H. vm_compute in H. discriminate H.
Qed.

(** C9, amended. The buffered call of [chat_completion] posts a single
    request, with [stream] set to [false], and when the daemon answers with
    a JSON body it returns an Envelope with exactly one text block: the
    text is [JSON.stringify(result, null, 2)] of the chat-completion result
    whose only choice has the generated text as its message content. *)
Theorem C9_buffered_call :
  forall (w : World) (a : Args) (msgs : list ChatMessage) (st : State)
         (p : OllamaGenerateResponse),
    post w (chat_request w a msgs) = HttpResolved (JsonBody p) ->
    exists req result,
      trace (snd (CallTool w (chat a msgs) st))
      = (trace st ++ [Post req; Now; Now])%list
      /\ b_stream (body req) = false
      /\ fst (CallTool w (chat a msgs) st)
         = inr {| content_of := [text_block (stringify_object result)] |}
      /\ Js.lookup "choices" result = Js.JArr [choice (Js.JStr (response p))].
Proof.
  intros w a msgs st p Hpost.
  exists (chat_request w a msgs). eexists.
  rewrite chat_call, Hpost. cbn [fst snd trace data_response].
  repeat split.
Qed.

Lemma C9_witness :
  exists req result,
    trace (snd (CallTool (answering "hi") (chat ask two_messages) initial))
    = (trace initial ++ [Post req; Now; Now])%list
    /\ b_stream (body req) = false
    /\ fst (CallTool (answering "hi") (chat ask two_messages) initial)
       = inr {| content_of := [text_block (stringify_object result)] |}
    /\ Js.lookup "choices" result
       = Js.JArr [choice (Js.JStr (response (payload "hi")))].
Proof.
  apply (C9_buffered_call (answering "hi") ask two_messages initial
           (payload "hi")).
  reflexivity.
Defined.

(* ================================================================== *)
(** * C8: the sampling parameters *)
(* ================================================================== *)

(** C8, as the specification states it, fails: [run] called with the
    temperature 0.7 posts a request whose body has no temperature. *)
Lemma C8_counterexample : ~ forwards_sampling calm (run ask).
Proof.
  intros H.
  destruct (H ask (run_request calm ask) eq_refl) as [Ht _].
  - rewrite run_call. left. reflexivity.
  - specialize (Ht (7 # 10) eq_refl). discriminate Ht.
Qed.

(** C8, amended. A [chat_completion] call posts one request, to the
    generate endpoint of the daemon, whose [temperature] is the one the
    caller supplied, as it was supplied (and absent when the caller
    supplied none), next to [stream: false] and [raw: true]. A [run] call
    posts one request to the same endpoint whose body is the model name,
    the prompt and [stream: true], and no temperature. *)
Theorem C8_temperature_forwarded_by_chat_completion :
  forall (w : World) (a : Args) (msgs : list ChatMessage) (st : State),
    (exists req later,
       trace (snd (CallTool w (chat a msgs) st))
       = (trace st ++ Post req :: later)%list
       /\ ~ In (Post req) later
       /\ url req = OLLAMA_HOST w ++ "/api/generate"
       /\ b_temperature (body req) = temperature a
       /\ b_stream (body req) = false
       /\ b_raw (body req) = Some true)
    /\ (exists req,
          trace (snd (CallTool w (run a) st)) = (trace st ++ [Post req])%list
          /\ url req = OLLAMA_HOST w ++ "/api/generate"
          /\ body req
             = {| b_model := name a; b_prompt := prompt a; b_stream := true;
                  b_temperature := None; b_raw := None;
                  b_num_predict := None; b_think := None |}).
Proof.
  intros w a msgs st. split.
  - exists (chat_request w a msgs).
    rewrite chat_call.
    destruct (post w (chat_request w a msgs)) as [data|e|message];
      cbn [snd trace].
    + exists [Now; Now]. repeat split.
      intros [H|[H|[]]]; discriminate H.
    + exists []. repeat split. intros [].
    + exists []. repeat split. intros [].
  - exists (run_request w a). rewrite run_call. repeat split.
Qed.

(* ================================================================== *)
(** * C5: the timeout of a call to the daemon *)
(* ================================================================== *)

(** C5, as the specification states it, fails: a [chat_completion] call
    whose request times out after the default 60000 ms ends in a Fault
    that says so, but its code is [InternalError], which is
    [internal_error] and not [backend_error]. *)
Lemma C5_counterexample :
  exists code,
    fst (CallTool stalled (chat ask two_messages) initial)
    = inl (McpError code "Ollama API error: timeout of 60000ms exceeded")
    /\ Spec.fault_code code <> Some Spec.backend_error.
Proof. exists InternalError. split; [reflexivity | discriminate]. Qed.

(** C5, amended. Both calls to the daemon carry a timeout: the one the
    caller supplies, and 60000 ms when the caller supplies none (or 0).
    When axios gives the request up because that time has elapsed, the
    call ends in a Fault with the code [InternalError] and the message
    [Ollama API error: timeout of <ms>ms exceeded]; a request that fails
    without a response for another reason ends in a Fault with the same
    code and axios's text for that reason after the same words, so the two
    Faults differ, by their message, whenever axios's texts differ. *)
Theorem C5_timeout_is_internal_error :
  forall (w : World) (a : Args) (msgs : list ChatMessage) (st : State)
         (reason : string),
    let rq := run_request w a in
    let cq := chat_request w a msgs in
    let limit := or_number (timeout a) 60000 in
    let timed_out :=
      McpError InternalError
        ("Ollama API error: timeout of " ++ Js.Number_toString limit
           ++ "ms exceeded") in
    let failed := McpError InternalError ("Ollama API error: " ++ reason) in
    DEFAULT_TIMEOUT = 60000
    /\ c_timeout (config rq) = limit
    /\ c_timeout (config cq) = limit
    /\ (timeout a = Some 0 -> limit = 60000)
    /\ (timeout a = None -> limit = 60000)
    /\ (forall ms, timeout a = Some ms -> ms <> 0 -> limit = ms)
    /\ (post w rq = HttpRejected (timeout_exceeded limit) ->
        fst (CallTool w (run a) st) = inl timed_out)
    /\ (post w cq = HttpRejected (timeout_exceeded limit) ->
        fst (CallTool w (chat a msgs) st) = inl timed_out)
    /\ (post w rq = HttpRejected (AxiosError None reason) ->
        fst (CallTool w (run a) st) = inl failed)
    /\ (post w cq = HttpRejected (AxiosError None reason) ->
        fst (CallTool w (chat a msgs) st) = inl failed)
    /\ (AxiosError None reason <> timeout_exceeded limit -> failed <> timed_out)
    /\ Spec.fault_code InternalError = Some Spec.internal_error.
Proof.
  intros w a msgs st reason rq cq limit timed_out failed.
  split; [reflexivity|]. split; [reflexivity|]. split; [reflexivity|].
  split; [now intros H; subst limit; rewrite H|].
  split; [now intros H; subst limit; rewrite H|].
  split.
  { intros ms H Hne. subst limit. rewrite H. unfold or_number.
    destruct (Z.eqb_spec ms 0); [contradiction | reflexivity]. }
  split; [intros H; subst rq; now rewrite run_call, H|].
  split; [intros H; subst cq; now rewrite chat_call, H|].
  split; [intros H; subst rq; now rewrite run_call, H|].
  split; [intros H; subst cq; now rewrite chat_call, H|].
  split; [|reflexivity].
  intros Hne Heq. apply Hne. unfold timeout_exceeded.
  subst failed timed_out. injection Heq as Heq.
  f_equal. exact Heq.
Qed.

(* ================================================================== *)
(** * C4: the stream of [run] *)
(* ================================================================== *)

Section Piped.

Variable w : World.

Lemma piped_decoded chunks deltas :
  decoded w chunks deltas ->
  forall controller,
    failure controller = None ->
    piped w chunks controller
    = {| emitted := emitted controller ++ deltas; failure := None |}.
Proof.
  induction 1 as [|chunk d chunks deltas Hd _ IH]; intros controller Hc; simpl.
  - rewrite app_nil_r. destruct controller; simpl in *. now subst.
  - unfold transform. rewrite Hd. cbn [enqueue failure]. rewrite Hc.
    rewrite IH by exact Hc. cbn [emitted enqueue]. now rewrite <- app_assoc.
Qed.

Lemma piped_undecoded front deltas bad back e :
  decoded w front deltas ->
  delta w bad = inl e ->
  forall controller,
    failure controller = None ->
    piped w (front ++ bad :: back) controller
    = {| emitted := emitted controller ++ deltas;
         failure := Some (stream_fault e) |}.
Proof.
  induction 1 as [|chunk d chunks deltas Hd _ IH]; intros He controller Hc;
    simpl.
  - unfold transform. rewrite He. cbn [controller_error failure emitted].
    now rewrite app_nil_r.
  - unfold transform. rewrite Hd. cbn [enqueue failure]. rewrite Hc.
    rewrite (IH He) by exact Hc. cbn [emitted enqueue].
    now rewrite <- app_assoc.
Qed.

End Piped.

(** C4. The code does not produce the stream that the claim describes.
    Under Node, where the body that axios delivers is a Node stream,
    [run] ends in the Fault
    [Failed to run model: response.data.pipeThrough is not a function] and
    returns no stream at all. Where the body is a web stream, its chunks
    are arrays of bytes, [chunk.toString()] is the list of the bytes in
    decimal, which is no JSON text, and for the three fragments of the
    example the stream fails on the first chunk, with the code
    [InternalError], before it has produced [He] or [llo]. *)
Theorem C4_run_does_not_stream :
  fst (CallTool (node_streaming three_fragments) (run ask) initial)
  = inl (McpError InternalError
           "Failed to run model: response.data.pipeThrough is not a function")
  /\ Chunk_toString (Uint8Array (fragment "response" (Js.quote "He")))
     = "123,34,114,101,115,112,111,110,115,101,34,58,34,72,101,34,125"
  /\ exists detail,
       fst (CallTool (streaming three_chunks) (run ask) initial)
       = inr {| content_of :=
                  [stream_block
                     {| emitted := [];
                        failure :=
                          Some (McpError InternalError
                                  ("Error processing stream: " ++ detail)) |}] |}.
Proof.
  split; [reflexivity|]. split; [reflexivity|].
  eexists. vm_compute. reflexivity.
Qed.

(* ================================================================== *)
(** * Sample runs *)
(* ================================================================== *)

(** On a Node stream, which has no [pipeThrough], [run] ends in a Fault. *)
Example run_on_node_stream :
  fst (CallTool
         (world (fun _ => ExecResolved "" "")
                (fun _ => HttpResolved (NodeStream three_fragments)))
         (run ask) initial)
  = inl (McpError InternalError
           "Failed to run model: response.data.pipeThrough is not a function").
Proof. reflexivity. Qed.

(** A [num_predict] of -1 sent to [chat_completion] is not in the body of
    the request it posts. *)
Example chat_completion_with_num_predict :
  let a :=
    {| name := None; modelfile := None; show_flag := None; verbose := None;
       prompt := None; timeout := Some 120000; source := None;
       destination := None; model := Some "gemma3:1b"; messages := None;
       temperature := Some (7 # 10); num_predict := Some (-1);
       think := Some false |} in
  trace (snd (CallTool calm (chat a two_messages) initial))
  = [ Post {| url := "http://127.0.0.1:11434/api/generate";
              body := {| b_model := Some "gemma3:1b";
                         b_prompt :=
                           Some ("System: Be terse" ++ Js.newline
                                   ++ "User: 2+2?" ++ Js.newline);
                         b_stream := false;
                         b_temperature := Some (7 # 10);
                         b_raw := Some true;
                         b_num_predict := None;
                         b_think := None |};
              config := {| c_timeout := 120000; c_responseType := None |} |};
      Now; Now ].
Proof. reflexivity. Qed.

(** The text [chat_completion] returns decodes to the result it was made
    from. *)
Example chat_completion_text_decodes :
  JsonText.parse
    (stringify_object
       (chat_completion 1751114169242 1751114170242 (Some "gemma3:1b")
          (Some ("4" ++ Js.newline))))
  = inr (Js.JObj
           (chat_completion 1751114169242 1751114170242 (Some "gemma3:1b")
              (Some ("4" ++ Js.newline)))).
Proof. vm_compute. reflexivity. Qed.

(** [show] with a flag and [verbose]. *)
Example show_command_line :
  let a :=
    {| name := Some "gemma3:1b"; modelfile := None;
       show_flag := Some "template"; verbose := Some true; prompt := None;
       timeout := None; source := None; destination := None; model := None;
       messages := None; temperature := None; num_predict := None;
       think := None |} in
  CallTool calm {| tool := "show"; arguments := Some a |} initial
  = (inr {| content_of := [text_block "NAME ID SIZE MODIFIED"] |},
     {| trace := [Exec "ollama show gemma3:1b --template --verbose"];
        reads := 0 |}).
Proof. reflexivity. Qed.

(** A call without arguments to a tool that reads them, and a call of a
    tool that does not exist. *)
Example pull_without_arguments :
  CallTool calm {| tool := "pull"; arguments := None |} initial
  = (inl (McpError InternalError
            ("Failed to pull model: "
               ++ "Cannot read properties of undefined (reading 'name')")),
     initial).
Proof. reflexivity. Qed.

Example unknown_tool :
  CallTool calm {| tool := "generate"; arguments := None |} initial
  = (inl (McpError MethodNotFound "Unknown tool: generate"), initial).
Proof. reflexivity. Qed.

(* ================================================================== *)
(** * The catalogue and the dispatcher *)
(* ================================================================== *)

Lemma advertised_cases (name : string) :
  In name (map t_name tools) ->
  process_backed name = true \/ http_backed name = true.
Proof.
  cbn [map tools t_name In].
  intros [<- | [<- | [<- | [<- | [<- | [<- | [<- | [<- | [<- | [<- | []]]]]]]]]]];
    (now left) || (now right).
Qed.

(** X1. The catalogue and the dispatcher agree on the tool names: a call
    of a tool that the catalogue lists never ends in [MethodNotFound], and
    a call of any other name ends in [MethodNotFound] with the message
    [Unknown tool: <name>], without a call to a backend and without a
    reading of the clock. *)
Theorem catalogue_matches_dispatcher :
  forall (w : World) (name : string) (args : option Args) (st : State),
    (In name (map t_name tools) ->
     forall message,
       fst (CallTool w {| tool := name; arguments := args |} st)
       <> inl (McpError MethodNotFound message))
    /\ (~ In name (map t_name tools) ->
        CallTool w {| tool := name; arguments := args |} st
        = (inl (McpError MethodNotFound ("Unknown tool: " ++ name)), st)).
Proof.
  intros w name args st. split.
  - intros Hin message Heq.
    apply advertised_cases in Hin.
    destruct (CallTool_outcome w {| tool := name; arguments := args |} st)
      as [[_ H] | [(_ & _ & H) | (Hp & Hh & _)]]; cbn [tool] in *.
    + rewrite Heq in H. inversion H.
    + rewrite Heq in H. inversion H.
    + destruct Hin; congruence.
  - apply unknown_tool_call.
Qed.

(** X2. A call reads the properties that the catalogue declares for its
    tool and nothing else: two argument bags that agree on every declared
    property of a tool give the same result, the same calls to the backends
    and the same state, whatever else they hold. *)
Theorem undeclared_properties_are_ignored :
  forall (w : World) (t : ToolDescriptor) (a b : Args) (st : State),
    In t tools ->
    (forall key, In key (declared (inputSchema t)) -> same_field key a b) ->
    CallTool w {| tool := t_name t; arguments := Some a |} st
    = CallTool w {| tool := t_name t; arguments := Some b |} st.
Proof.
  intros w t a b st Hin Hsame.
  cbn [tools In] in Hin.
  destruct Hin as [<- | [<- | [<- | [<- | [<- | [<- | [<- | [<- | [<- | [<- | []]]]]]]]]]];
    cbn [t_name inputSchema declared map fst] in Hsame |- *.
  - reflexivity.
  - pose proof (Hsame "name" ltac:(cbn; tauto)) as Hn.
    pose proof (Hsame "modelfile" ltac:(cbn; tauto)) as Hm.
    cbn in Hn, Hm.
    rewrite !process_backed_call with (a := a) by (reflexivity || now left).
    rewrite !process_backed_call with (a := b) by (reflexivity || now left).
    unfold command_line; cbn [tool String.eqb Ascii.eqb Bool.eqb].
    now rewrite Hn, Hm.
  - pose proof (Hsame "name" ltac:(cbn; tauto)) as Hn.
    pose proof (Hsame "show_flag" ltac:(cbn; tauto)) as Hf.
    pose proof (Hsame "verbose" ltac:(cbn; tauto)) as Hv.
    cbn in Hn, Hf, Hv.
    rewrite !process_backed_call with (a := a) by (reflexivity || now left).
    rewrite !process_backed_call with (a := b) by (reflexivity || now left).
    unfold command_line; cbn [tool String.eqb Ascii.eqb Bool.eqb].
    now rewrite Hn, Hf, Hv.
  - pose proof (Hsame "name" ltac:(cbn; tauto)) as Hn.
    pose proof (Hsame "prompt" ltac:(cbn; tauto)) as Hp.
    pose proof (Hsame "timeout" ltac:(cbn; tauto)) as Ht.
    cbn in Hn, Hp, Ht.
    change {| tool := "run"; arguments := Some a |} with (run a).
    change {| tool := "run"; arguments := Some b |} with (run b).
    rewrite !run_call. unfold run_request. now rewrite Hn, Hp, Ht.
  - pose proof (Hsame "name" ltac:(cbn; tauto)) as Hn. cbn in Hn.
    rewrite !process_backed_call with (a := a) by (reflexivity || now left).
    rewrite !process_backed_call with (a := b) by (reflexivity || now left).
    unfold command_line; cbn [tool String.eqb Ascii.eqb Bool.eqb].
    now rewrite Hn.
  - pose proof (Hsame "name" ltac:(cbn; tauto)) as Hn. cbn in Hn.
    rewrite !process_backed_call with (a := a) by (reflexivity || now left).
    rewrite !process_backed_call with (a := b) by (reflexivity || now left).
    unfold command_line; cbn [tool String.eqb Ascii.eqb Bool.eqb].
    now rewrite Hn.
  - reflexivity.
  - pose proof (Hsame "source" ltac:(cbn; tauto)) as Hs.
    pose proof (Hsame "destination" ltac:(cbn; tauto)) as Hd.
    cbn in Hs, Hd.
    rewrite !process_backed_call with (a := a) by (reflexivity || now left).
    rewrite !process_backed_call with (a := b) by (reflexivity || now left).
    unfold command_line; cbn [tool String.eqb Ascii.eqb Bool.eqb].
    now rewrite Hs, Hd.
  - pose proof (Hsame "name" ltac:(cbn; tauto)) as Hn. cbn in Hn.
    rewrite !process_backed_call with (a := a) by (reflexivity || now left).
    rewrite !process_backed_call with (a := b) by (reflexivity || now left).
    unfold command_line; cbn [tool String.eqb Ascii.eqb Bool.eqb].
    now rewrite Hn.
  - pose proof (Hsame "model" ltac:(cbn; tauto)) as Hm.
    pose proof (Hsame "messages" ltac:(cbn; tauto)) as Hg.
    pose proof (Hsame "temperature" ltac:(cbn; tauto)) as Hq.
    pose proof (Hsame "timeout" ltac:(cbn; tauto)) as Ht.
    cbn in Hm, Hg, Hq, Ht.
    rewrite !chat_call_any, Hg.
    destruct (messages b) as [msgs|]; [|reflexivity].
    rewrite !chat_call. unfold chat_request. now rewrite Hm, Hq, Ht.
Qed.

Lemma undeclared_properties_are_ignored_witness :
  CallTool calm
    {| tool := "pull";
       arguments :=
         Some {| name := Some "gemma3:1b"; modelfile := None;
                 show_flag := None; verbose := None; prompt := None;
                 timeout := None; source := None; destination := None;
                 model := None; messages := None; temperature := None;
                 num_predict := Some 50; think := Some true |} |} initial
  = CallTool calm
      {| tool := "pull";
         arguments :=
           Some {| name := Some "gemma3:1b"; modelfile := Some "Modelfile";
                   show_flag := None; verbose := None; prompt := None;
                   timeout := None; source := None; destination := None;
                   model := None; messages := None; temperature := None;
                   num_predict := None; think := None |} |} initial.
Proof.
  apply (undeclared_properties_are_ignored calm
           {| t_name := "pull";
              t_description := "Pull a model from a registry";
              inputSchema :=
                object_schema
                  [ ("name",
                      string_schema (Some "Name of the model to pull") None) ]
                  (Some ["name"]) (Some false) |}).
  - cbn. tauto.
  - intros key [<- | []]. reflexivity.
Defined.

(* ================================================================== *)
(** * Calls that miss arguments *)
(* ================================================================== *)

Lemma requiring_tools (t : ToolDescriptor) :
  In t tools ->
  required_of (inputSchema t) <> [] ->
  In (t_name t)
    ["create"; "show"; "run"; "pull"; "push"; "cp"; "rm"; "chat_completion"].
Proof.
  cbn [tools In].
  intros [<- | [<- | [<- | [<- | [<- | [<- | [<- | [<- | [<- | [<- | []]]]]]]]]]];
    cbn; intros H; tauto.
Qed.

(** X3. A call without an arguments object, of a tool whose schema
    requires a field, ends in an [InternalError] Fault before any backend
    is called: the state is left as it was. A tool whose schema requires
    nothing ([serve], [list]) does not look at its arguments. *)
Theorem call_without_arguments :
  forall (w : World) (t : ToolDescriptor) (args : option Args) (st : State),
    In t tools ->
    (required_of (inputSchema t) <> [] ->
     exists message,
       CallTool w {| tool := t_name t; arguments := None |} st
       = (inl (McpError InternalError message), st))
    /\ (required_of (inputSchema t) = [] ->
        CallTool w {| tool := t_name t; arguments := args |} st
        = CallTool w {| tool := t_name t; arguments := None |} st).
Proof.
  intros w t args st Hin. split.
  - intros Hreq.
    destruct (no_arguments_call w (t_name t) st (requiring_tools t Hin Hreq))
      as (words & detail & _ & H).
    now exists (words ++ detail).
  - cbn [tools In] in Hin.
    destruct Hin as [<- | [<- | [<- | [<- | [<- | [<- | [<- | [<- | [<- | [<- | []]]]]]]]]]];
      cbn; intros H; try discriminate H; reflexivity.
Qed.

Lemma call_without_arguments_witness :
  exists message,
    CallTool calm {| tool := "rm"; arguments := None |} initial
    = (inl (McpError InternalError message), initial).
Proof.
  apply (call_without_arguments calm
           {| t_name := "rm";
              t_description := "Remove a model";
              inputSchema :=
                object_schema
                  [ ("name",
                      string_schema (Some "Name of the model to remove")
                        None) ]
                  (Some ["name"]) (Some false) |} None initial).
  - cbn. tauto.
  - discriminate.
Defined.

Ltac held pre post :=
  exists pre, post; rewrite ?Str_append_assoc, ?Str_append_nil_r; reflexivity.

(** X4. A required field that is missing from the arguments does not stop
    a tool that runs the [ollama] command: the command is run all the same,
    once, with the word [undefined] where the value belongs. *)
Theorem missing_field_runs_undefined :
  forall (w : World) (t : ToolDescriptor) (a : Args) (key : string)
         (st : State),
    In t tools ->
    process_backed (t_name t) = true ->
    In key (required_of (inputSchema t)) ->
    field_absent key a ->
    exists cmd,
      trace (snd (CallTool w {| tool := t_name t; arguments := Some a |} st))
      = (trace st ++ [Exec cmd])%list
      /\ Str.contains " undefined" cmd.
Proof.
  intros w t a key st Hin Hp Hkey Habs.
  rewrite (process_backed_call w
             {| tool := t_name t; arguments := Some a |} a st Hp
             (or_introl eq_refl)).
  cbn [snd tool]. exists (command_line (t_name t) a).
  split; [reflexivity|].
  unfold field_absent in Habs.
  cbn [tools In] in Hin.
  destruct Hin as [<- | [<- | [<- | [<- | [<- | [<- | [<- | [<- | [<- | [<- | []]]]]]]]]]];
    cbn [t_name inputSchema required_of In] in Hkey;
    try discriminate Hp; try contradiction;
    unfold command_line; cbn [t_name String.eqb Ascii.eqb Bool.eqb];
    cbv beta iota zeta.
  - destruct Hkey as [<- | [<- | []]]; cbn in Habs; rewrite Habs; cbn [tmpl].
    + held "ollama create" (" -f " ++ tmpl (modelfile a)).
    + held ("ollama create " ++ tmpl (name a) ++ " -f") "".
  - destruct Hkey as [<- | []]; cbn in Habs; rewrite Habs; cbn [tmpl].
    destruct (truthy_string (show_flag a)), (truthy_bool (verbose a)).
    + held "ollama show" (" --" ++ tmpl (show_flag a) ++ " --verbose").
    + held "ollama show" (" --" ++ tmpl (show_flag a)).
    + held "ollama show" " --verbose".
    + held "ollama show" "".
  - destruct Hkey as [<- | []]; cbn in Habs; rewrite Habs.
    held "ollama pull" "".
  - destruct Hkey as [<- | []]; cbn in Habs; rewrite Habs.
    held "ollama push" "".
  - destruct Hkey as [<- | [<- | []]]; cbn in Habs; rewrite Habs; cbn [tmpl].
    + held "ollama cp" (" " ++ tmpl (destination a)).
    + held ("ollama cp " ++ tmpl (source a)) "".
  - destruct Hkey as [<- | []]; cbn in Habs; rewrite Habs.
    held "ollama rm" "".
Qed.

Lemma missing_field_runs_undefined_witness :
  exists cmd,
    trace (snd (CallTool calm {| tool := "pull"; arguments := Some no_args |}
                  initial))
    = (trace initial ++ [Exec cmd])%list
    /\ Str.contains " undefined" cmd.
Proof.
  apply (missing_field_runs_undefined calm
           {| t_name := "pull";
              t_description := "Pull a model from a registry";
              inputSchema :=
                object_schema
                  [ ("name",
                      string_schema (Some "Name of the model to pull") None) ]
                  (Some ["name"]) (Some false) |} no_args "name" initial).
  - cbn. tauto.
  - reflexivity.
  - cbn. tauto.
  - reflexivity.
Defined.

(* ================================================================== *)
(** * What a call does to the backends *)
(* ================================================================== *)

Lemma adds_nothing (st : State) :
  adds st st [] /\ reads st = (reads st + clock_reads [])%nat.
Proof. unfold adds. cbn. now rewrite app_nil_r, Nat.add_0_r. Qed.

Lemma adds_one (st : State) (ev : Event) :
  ev <> Now ->
  adds st (record ev st) [ev]
  /\ reads (record ev st) = (reads st + clock_reads [ev])%nat.
Proof.
  intros H. unfold adds, record. cbn [trace reads]. split; [reflexivity|].
  destruct ev; cbn; try lia. congruence.
Qed.

Ltac one_command w name a st :=
  rewrite (process_backed_call w {| tool := name; arguments := _ |} a st)
    by (reflexivity || (now left) || (right; cbn; tauto));
  cbn [snd tool];
  exists [Exec (command_line name a)];
  split; [apply adds_one; discriminate|];
  split; [apply adds_one; discriminate|];
  right; left; split; [reflexivity | now eexists].

Ltac no_call w name st :=
  let H := fresh in
  destruct (no_arguments_call w name st ltac:(cbn; tauto))
    as (? & ? & _ & H);
  rewrite H; cbn [snd];
  exists []; split; [apply adds_nothing|];
  split; [apply adds_nothing | now left].

(** X5. A call makes at most one call to a backend, and of one kind: a
    tool that runs the [ollama] command runs one command or none and never
    reaches the daemon; [run] and [chat_completion] post one request or none
    and never run a command; the clock is read by [chat_completion] alone,
    twice, and only after the daemon has answered. The trace only grows. *)
Theorem at_most_one_backend_call :
  forall (w : World) (request : Request) (st : State),
    exists added,
      adds st (snd (CallTool w request st)) added
      /\ reads (snd (CallTool w request st))
         = (reads st + clock_reads added)%nat
      /\ (added = []
          \/ (process_backed (tool request) = true
              /\ exists cmd, added = [Exec cmd])
          \/ (http_backed (tool request) = true
              /\ exists req, added = [Post req])
          \/ (tool request = "chat_completion"
              /\ exists req data,
                   post w req = HttpResolved data
                   /\ added = [Post req; Now; Now])).
Proof.
  intros w [name args] st. cbn [tool].
  destruct (in_dec string_dec name (map t_name tools)) as [Hin|Hout].
  2:{ rewrite (unknown_tool_call w name args st Hout). cbn [snd].
      exists []. split; [apply adds_nothing|].
      split; [apply adds_nothing | now left]. }
  cbn [map tools t_name In] in Hin.
  destruct Hin as [<- | [<- | [<- | [<- | [<- | [<- | [<- | [<- | [<- | [<- | []]]]]]]]]]];
    destruct args as [a|].
  - one_command w "serve" a st.
  - one_command w "serve" no_args st.
  - one_command w "create" a st.
  - no_call w "create" st.
  - one_command w "show" a st.
  - no_call w "show" st.
  - change {| tool := "run"; arguments := Some a |} with (run a).
    rewrite run_call. cbn [snd].
    exists [Post (run_request w a)].
    split; [apply adds_one; discriminate|].
    split; [apply adds_one; discriminate|].
    right; right; left. split; [reflexivity | now eexists].
  - no_call w "run" st.
  - one_command w "pull" a st.
  - no_call w "pull" st.
  - one_command w "push" a st.
  - no_call w "push" st.
  - one_command w "list" a st.
  - one_command w "list" no_args st.
  - one_command w "cp" a st.
  - no_call w "cp" st.
  - one_command w "rm" a st.
  - no_call w "rm" st.
  - rewrite chat_call_any.
    destruct (messages a) as [msgs|].
    + rewrite chat_call.
      destruct (post w (chat_request w a msgs)) as [data|e|message] eqn:Hpost;
        cbn [snd].
      * exists [Post (chat_request w a msgs); Now; Now].
        unfold adds. cbn [trace reads clock_reads filter length].
        split; [reflexivity|]. split; [lia|].
        right; right; right. split; [reflexivity|].
        now exists (chat_request w a msgs), data.
      * exists [Post (chat_request w a msgs)].
        split; [apply adds_one; discriminate|].
        split; [apply adds_one; discriminate|].
        right; right; left. split; [reflexivity | now eexists].
      * exists [Post (chat_request w a msgs)].
        split; [apply adds_one; discriminate|].
        split; [apply adds_one; discriminate|].
        right; right; left. split; [reflexivity | now eexists].
    + exists []. split; [apply adds_nothing|].
      split; [apply adds_nothing | now left].
  - no_call w "chat_completion" st.
Qed.

(** X6. When the command of a process-backed tool exits with 0, the text
    of the Envelope is what the command wrote to its standard output, and
    what it wrote to its standard error only when the standard output is
    empty: the standard error of a command that printed something is not
    returned. *)
Theorem stdout_before_stderr :
  forall (w : World) (request : Request) (a : Args) (st : State)
         (stdout stderr : string),
    process_backed (tool request) = true ->
    arguments_given request a ->
    exec w (command_line (tool request) a) = ExecResolved stdout stderr ->
    (stdout <> "" ->
     fst (CallTool w request st) = inr {| content_of := [text_block stdout] |})
    /\ (stdout = "" ->
        fst (CallTool w request st)
        = inr {| content_of := [text_block stderr] |}).
Proof.
  intros w request a st stdout stderr Hp Ha He.
  rewrite (process_backed_call w request a st Hp Ha), He.
  cbn [fst]. unfold text_result, or_string. cbn [fst snd].
  split.
  - intros Hne. destruct (String.eqb_spec stdout ""); [contradiction|].
    reflexivity.
  - intros ->. reflexivity.
Qed.

Lemma stdout_before_stderr_witness :
  fst (CallTool
         (world (fun _ => ExecResolved "" "pulling manifest")
                (fun _ => HttpResolved (JsonBody (payload "hi"))))
         pull_request initial)
  = inr {| content_of := [text_block "pulling manifest"] |}.
Proof.
  apply (stdout_before_stderr
           (world (fun _ => ExecResolved "" "pulling manifest")
                  (fun _ => HttpResolved (JsonBody (payload "hi"))))
           pull_request
           {| name := Some "nomodel"; modelfile := None; show_flag := None;
              verbose := None; prompt := None; timeout := None;
              source := None; destination := None; model := None;
              messages := None; temperature := None; num_predict := None;
              think := None |} initial "" "pulling manifest").
  - reflexivity.
  - left. reflexivity.
  - reflexivity.
  - reflexivity.
Defined.

(** X7. The command line of [show] is [ollama show <name>], then the flag
    after two dashes when [show_flag] is a string that is not empty,
    whatever the string is, then [--verbose] when [verbose] is [true]. An
    empty [show_flag] and a [verbose] of [false] count as absent. *)
Theorem show_command_flags :
  forall (w : World) (a : Args) (st : State),
    exists flag detail,
      trace (snd (CallTool w {| tool := "show"; arguments := Some a |} st))
      = (trace st
           ++ [Exec ("ollama show " ++ tmpl (name a) ++ flag ++ detail)%string])%list
      /\ (show_flag a = None \/ show_flag a = Some "" -> flag = "")
      /\ (forall f, show_flag a = Some f -> f <> "" -> flag = " --" ++ f)
      /\ (verbose a = Some true -> detail = " --verbose")
      /\ (verbose a = None \/ verbose a = Some false -> detail = "").
Proof.
  intros w a st.
  rewrite (process_backed_call w {| tool := "show"; arguments := Some a |} a st)
    by (reflexivity || now left).
  cbn [snd tool]. unfold command_line, record.
  cbn [String.eqb Ascii.eqb Bool.eqb trace]. cbv beta iota zeta.
  exists (if truthy_string (show_flag a) then " --" ++ tmpl (show_flag a)
          else ""),
         (if truthy_bool (verbose a) then " --verbose" else "").
  split.
  { destruct (truthy_string (show_flag a)), (truthy_bool (verbose a));
      rewrite ?Str_append_assoc, ?Str_append_nil_r; reflexivity. }
  split; [intros [-> | ->]; reflexivity|].
  split.
  { intros f -> Hf. cbn [truthy_string tmpl].
    destruct (String.eqb_spec f ""); [contradiction | reflexivity]. }
  split; [intros ->; reflexivity | intros [-> | ->]; reflexivity].
Qed.

(* ================================================================== *)
(** * Requests that the daemon does not answer *)
(* ================================================================== *)

(** X8. When the daemon answers [chat_completion] with an error status,
    the Fault carries the [error] text of the daemon's body in place of
    axios's own message; when that text is empty or the body has none, it
    carries axios's message. For [run] the Fault always carries axios's
    message: its request asks for a stream, so the body of the error
    response is a stream that nobody reads, and what the daemon wrote in
    it is lost. The words before the text are [Ollama API error: ] for
    both tools. *)
Theorem daemon_error_text_first :
  forall (w : World) (a : Args) (msgs : list ChatMessage) (st : State)
         (err message : string) (body_error : option string),
    let said text := inl (McpError InternalError ("Ollama API error: " ++ text))
    in
    (post w (chat_request w a msgs)
     = HttpRejected (AxiosError body_error message) ->
     (body_error = Some err -> err <> "" ->
      fst (CallTool w (chat a msgs) st) = said err)
     /\ (body_error = Some "" \/ body_error = None ->
         fst (CallTool w (chat a msgs) st) = said message))
    /\ (post w (run_request w a) = HttpRejected (AxiosError body_error message) ->
        fst (CallTool w (run a) st) = said message).
Proof.
  intros w a msgs st err message body_error said. subst said. split.
  - intros Hpost. rewrite chat_call, Hpost. cbn [fst rejected_message].
    split.
    + intros -> Hne. cbn [axios_error_text]. unfold or_string.
      destruct (String.eqb_spec err ""); [contradiction | reflexivity].
    + intros [-> | ->]; reflexivity.
  - intros Hpost. rewrite run_call, Hpost. reflexivity.
Qed.

(** X9. A rejection of the request that is not an [AxiosError] ends in a
    Fault made of the words of the handler, [Failed to run model: ] or
    [Unexpected error: ], and the text of the error; after a rejection the
    clock is not read and no result is built. *)
Theorem other_rejections :
  forall (w : World) (a : Args) (msgs : list ChatMessage) (st : State)
         (e : Exn),
    (forall body_error message, e <> AxiosError body_error message) ->
    (post w (run_request w a) = HttpRejected e ->
     CallTool w (run a) st
     = (inl (McpError InternalError ("Failed to run model: " ++ formatError e)),
        record (Post (run_request w a)) st))
    /\ (post w (chat_request w a msgs) = HttpRejected e ->
        CallTool w (chat a msgs) st
        = (inl (McpError InternalError
                  ("Unexpected error: " ++ formatError e)),
           record (Post (chat_request w a msgs)) st)).
Proof.
  intros w a msgs st e Hother. split; intros Hpost.
  - rewrite run_call, Hpost.
    destruct e; try reflexivity. now destruct (Hother response_data_error message).
  - rewrite chat_call, Hpost.
    destruct e; try reflexivity. now destruct (Hother response_data_error message).
Qed.

Lemma other_rejections_witness :
  CallTool
    (world (fun _ => ExecResolved "" "")
           (fun _ => HttpRejected (Error "socket hang up")))
    (run ask) initial
  = (inl (McpError InternalError "Failed to run model: socket hang up"),
     record
       (Post (run_request
                (world (fun _ => ExecResolved "" "")
                       (fun _ => HttpRejected (Error "socket hang up")))
                ask))
       initial).
Proof.
  apply (other_rejections
           (world (fun _ => ExecResolved "" "")
                  (fun _ => HttpRejected (Error "socket hang up")))
           ask two_messages initial (Error "socket hang up")).
  - discriminate.
  - reflexivity.
Defined.

(* ================================================================== *)
(** * The messages of [chat_completion] *)
(* ================================================================== *)

(** X10. [chat_completion] without [messages] ends in a Fault before any
    request is posted. With an empty list of messages it posts its request
    all the same, with the empty string as prompt. *)
Theorem messages_missing_or_empty :
  forall (w : World) (a : Args) (st : State),
    (exists message,
       CallTool w
         {| tool := "chat_completion";
            arguments :=
              Some {| name := name a; modelfile := modelfile a;
                      show_flag := show_flag a; verbose := verbose a;
                      prompt := prompt a; timeout := timeout a;
                      source := source a; destination := destination a;
                      model := model a; messages := None;
                      temperature := temperature a;
                      num_predict := num_predict a; think := think a |} |} st
       = (inl (McpError InternalError message), st))
    /\ (exists req later,
          trace (snd (CallTool w (chat a []) st))
          = (trace st ++ Post req :: later)%list
          /\ b_prompt (body req) = Some "").
Proof.
  intros w a st. split.
  - rewrite chat_call_any. cbn [messages]. now eexists.
  - exists (chat_request w a []). rewrite chat_call.
    destruct (post w (chat_request w a [])); cbn [snd trace].
    + now exists [Now; Now].
    + now exists [].
    + now exists [].
Qed.

Lemma render_unknown (m : ChatMessage) :
  known_role m = false -> render m = "".
Proof.
  unfold known_role, render.
  destruct (String.eqb (role m) "system"); [discriminate|].
  destruct (String.eqb (role m) "user"); [discriminate|].
  destruct (String.eqb (role m) "assistant"); [discriminate|].
  reflexivity.
Qed.

(** X11. Messages whose role is none of [system], [user] and [assistant]
    leave no trace in the prompt: the prompt of a list is the prompt of the
    list without them, and a list of such messages alone has the empty
    prompt. *)
Theorem unknown_roles_are_dropped :
  forall (msgs : list ChatMessage),
    flatten msgs = flatten (filter known_role msgs)
    /\ (filter known_role msgs = [] -> flatten msgs = "").
Proof.
  intros msgs.
  assert (H : flatten msgs = flatten (filter known_role msgs)).
  { induction msgs as [|m msgs IH]; [reflexivity|].
    change (flatten (m :: msgs)) with (render m ++ flatten msgs).
    cbn [filter]. destruct (known_role m) eqn:Hk.
    - change (flatten (m :: filter known_role msgs))
        with (render m ++ flatten (filter known_role msgs)).
      now rewrite IH.
    - now rewrite (render_unknown m Hk), IH. }
  split; [exact H|]. intros He. now rewrite H, He.
Qed.

(** X12. The content of a message is copied into the prompt as it is: a
    line feed followed by a role label inside one message reads, in the
    prompt, as the start of another message. One [user] message can
    produce the prompt of a [user] message followed by an [assistant]
    message. *)
Theorem content_is_not_separated_from_labels :
  forall (first second : string),
    flatten [msg "user" (first ++ Js.newline ++ "Assistant: " ++ second)]
    = flatten [msg "user" first; msg "assistant" second].
Proof.
  intros first second. unfold flatten. cbn.
  rewrite !Str_append_assoc, !Str_append_nil_r. cbn.
  reflexivity.
Qed.

(* ================================================================== *)
(** * The address of the daemon *)
(* ================================================================== *)

(** X13. Both tools that call the daemon post to [<host>/api/generate],
    where the host is [OLLAMA_HOST] of the environment, and
    [http://127.0.0.1:11434] when that variable is unset or empty. *)
Theorem requests_go_to_the_configured_host :
  forall (w : World) (a : Args) (msgs : list ChatMessage) (st : State),
    exists host,
      (exists later,
         trace (snd (CallTool w (run a) st))
         = (trace st
              ++ Post (run_request w a) :: later)%list)
      /\ (exists later,
            trace (snd (CallTool w (chat a msgs) st))
            = (trace st ++ Post (chat_request w a msgs) :: later)%list)
      /\ url (run_request w a) = host ++ "/api/generate"
      /\ url (chat_request w a msgs) = host ++ "/api/generate"
      /\ (env_OLLAMA_HOST w = None \/ env_OLLAMA_HOST w = Some "" ->
          host = "http://127.0.0.1:11434")
      /\ (forall h, env_OLLAMA_HOST w = Some h -> h <> "" -> host = h).
Proof.
  intros w a msgs st. exists (OLLAMA_HOST w).
  split; [rewrite run_call; now exists []|].
  split.
  { rewrite chat_call.
    destruct (post w (chat_request w a msgs)); cbn [snd trace].
    - now exists [Now; Now].
    - now exists [].
    - now exists []. }
  split; [reflexivity|]. split; [reflexivity|].
  unfold OLLAMA_HOST. split.
  - intros [-> | ->]; reflexivity.
  - intros h -> Hh. unfold or_string.
    destruct (String.eqb_spec h ""); [contradiction | reflexivity].
Qed.

(* ================================================================== *)
(** * More on the stream of [run] *)
(* ================================================================== *)

Section Chunks.

Variable w : World.


Lemma piped_count chunks controller :
  failure controller = None ->
  let s := piped w chunks controller in
  (failure s = None <-> forallb (decodes w) chunks = true)
  /\ (failure s = None ->
      length (emitted s)
      = (length (emitted controller) + length chunks)%nat)
  /\ (failure s <> None ->
      (length (emitted s)
       < length (emitted controller) + length chunks)%nat).
Proof.
  revert controller.
  induction chunks as [|chunk chunks IH]; intros controller Hc; cbn [piped].
  - cbn. split; [tauto|].
    split; [intros _; now rewrite Nat.add_0_r | intros H; contradiction].
  - cbv zeta. unfold transform. cbn [forallb length].
    destruct (delta w chunk) as [e|d] eqn:Hd.
    + assert (Hdec : decodes w chunk = false)
        by (unfold decodes; now rewrite Hd).
      rewrite Hdec. cbn [controller_error failure emitted andb].
      split; [split; discriminate|].
      split; [discriminate | intros _; lia].
    + assert (Hdec : decodes w chunk = true)
        by (unfold decodes; now rewrite Hd).
      rewrite Hdec. cbn [enqueue failure andb]. rewrite Hc.
      pose proof (IH (enqueue d controller) Hc) as IH'. cbv zeta in IH'.
      replace (length (emitted (enqueue d controller)))
        with (S (length (emitted controller))) in IH'
        by (cbn [enqueue emitted]; rewrite length_app; cbn [length]; lia).
      destruct IH' as (Hiff & Heq & Hlt).
      split; [exact Hiff|].
      split; intros H; [rewrite (Heq H) | specialize (Hlt H)]; lia.
Qed.

End Chunks.


(** X15. The stream of [run] ends normally exactly when every chunk
    decodes, and then it has produced as many items as there were chunks;
    when it fails it has produced fewer items than there were chunks. It
    never produces more items than chunks. *)
Theorem stream_ends_normally_iff_all_decode :
  forall (w : World) (chunks : list string),
    (failure (piped w chunks fresh) = None
     <-> forallb (decodes w) chunks = true)
    /\ (failure (piped w chunks fresh) = None ->
        length (emitted (piped w chunks fresh)) = length chunks)
    /\ (failure (piped w chunks fresh) <> None ->
        (length (emitted (piped w chunks fresh)) < length chunks)%nat).
Proof.
  intros w chunks. exact (piped_count w chunks fresh eq_refl).
Qed.

(** X16. A chunk that is valid JSON but not an object does not stop the
    stream when it is a boolean, a number, a string or an array: the stream
    produces [undefined] for it. A chunk that is the JSON [null] makes the
    stream fail. A chunk that is an object produces the value of its
    [response] property. *)
Theorem chunks_that_are_not_objects :
  forall (w : World) (chunk : string) (v : Js.value),
    JSON_parse w chunk = inr v ->
    (plain_value v = true ->
     piped w [chunk] fresh
     = {| emitted := [Js.JUndefined]; failure := None |})
    /\ (v = Js.JNull ->
        exists message,
          piped w [chunk] fresh
          = {| emitted := [];
               failure := Some (McpError InternalError message) |})
    /\ (forall fields,
          v = Js.JObj fields ->
          piped w [chunk] fresh
          = {| emitted := [Js.lookup "response" fields]; failure := None |}).
Proof.
  intros w chunk v Hparse.
  cbn [piped]. unfold transform, delta. rewrite Hparse.
  repeat split.
  - destruct v; try discriminate; reflexivity.
  - intros ->. now eexists.
  - intros fields ->. reflexivity.
Qed.

Lemma chunks_that_are_not_objects_witness :
  piped calm ["42"] fresh = {| emitted := [Js.JUndefined]; failure := None |}.
Proof.
  apply (chunks_that_are_not_objects calm "42" (Js.JNum 42)); reflexivity.
Defined.

(** X17. When the body of the daemon's answer has no [pipeThrough], as a
    Node stream has none, [run] ends in the Fault
    [Failed to run model: response.data.pipeThrough is not a function]
    after it has posted its request, whatever the body holds. *)
Theorem run_needs_pipeThrough :
  forall (w : World) (a : Args) (st : State) (data : ResponseData),
    post w (run_request w a) = HttpResolved data ->
    (forall chunks, data <> WebStream chunks) ->
    CallTool w (run a) st
    = (inl (McpError InternalError
              "Failed to run model: response.data.pipeThrough is not a function"),
       record (Post (run_request w a)) st).
Proof.
  intros w a st data Hpost Hnot.
  rewrite run_call, Hpost.
  destruct data as [p|chunks|chunks]; try reflexivity.
  now destruct (Hnot chunks).
Qed.

Lemma run_needs_pipeThrough_witness :
  CallTool
    (world (fun _ => ExecResolved "" "")
           (fun _ => HttpResolved (NodeStream three_fragments)))
    (run ask) initial
  = (inl (McpError InternalError
            "Failed to run model: response.data.pipeThrough is not a function"),
     record
       (Post (run_request
                (world (fun _ => ExecResolved "" "")
                       (fun _ => HttpResolved (NodeStream three_fragments)))
                ask))
       initial).
Proof.
  apply (run_needs_pipeThrough
           (world (fun _ => ExecResolved "" "")
                  (fun _ => HttpResolved (NodeStream three_fragments)))
           ask initial (NodeStream three_fragments)).
  - reflexivity.
  - discriminate.
Defined.

(* ================================================================== *)
(** * The messages of the Faults *)
(* ================================================================== *)

Ltac words_of_command w name a st :=
  rewrite (process_backed_call w {| tool := name; arguments := _ |} a st)
    by (reflexivity || (now left) || (right; cbn; tauto));
  cbn [fst tool];
  destruct (exec w (command_line name a)) as [out err|e]; [exact I|];
  left; eexists; eexists; split; [|left; reflexivity]; cbn; tauto.

Ltac words_of_no_call w name st :=
  let H := fresh in
  destruct (no_arguments_call w name st ltac:(cbn; tauto))
    as (words & detail & Hw & H);
  rewrite H; cbn [fst]; left; exists words, detail;
  split; [exact Hw | now left].

Lemma rejected_words (words : string) (e : Exn) :
  In words fault_words ->
  exists words' detail,
    In words' fault_words
    /\ rejected_message words e = words' ++ detail.
Proof.
  intros Hw. destruct e; cbn [rejected_message];
    try (now exists words; eexists).
  exists "Ollama API error: ". eexists. split; [cbn; tauto | reflexivity].
Qed.

(** A call that throws an [McpError] throws a message that starts with
    fixed words; any other error it ends with is the one the process died
    on. *)
Lemma call_fault_words (w : World) (request : Request) (st : State) :
  match fst (CallTool w request st) with
  | inl e =>
      (exists words detail,
         In words fault_words
         /\ (e = McpError InternalError (words ++ detail)
             \/ e = McpError MethodNotFound (words ++ detail)))
      \/ exists message, e = Error message
  | inr _ => True
  end.
Proof.
  destruct request as [name args].
  destruct (in_dec string_dec name (map t_name tools)) as [Hin|Hout].
  2:{ rewrite (unknown_tool_call w name args st Hout). cbn [fst]. left.
      exists "Unknown tool: ", name. split; [cbn; tauto | now right]. }
  cbn [map tools t_name In] in Hin.
  destruct Hin as [<- | [<- | [<- | [<- | [<- | [<- | [<- | [<- | [<- | [<- | []]]]]]]]]]];
    destruct args as [a|].
  - words_of_command w "serve" a st.
  - words_of_command w "serve" no_args st.
  - words_of_command w "create" a st.
  - words_of_no_call w "create" st.
  - words_of_command w "show" a st.
  - words_of_no_call w "show" st.
  - change {| tool := "run"; arguments := Some a |} with (run a).
    rewrite run_call. cbn [fst].
    destruct (post w (run_request w a)) as [[p|chunks|chunks]|e|message];
      try exact I;
      try (left; exists "Failed to run model: "; eexists;
           split; [cbn; tauto | left; reflexivity]).
    + destruct (rejected_words "Failed to run model: "
                  (delivered (config (run_request w a)) e)
                  ltac:(cbn; tauto))
        as (words & detail & Hw & ->).
      left. exists words, detail. split; [exact Hw | now left].
    + right. now eexists.
  - words_of_no_call w "run" st.
  - words_of_command w "pull" a st.
  - words_of_no_call w "pull" st.
  - words_of_command w "push" a st.
  - words_of_no_call w "push" st.
  - words_of_command w "list" a st.
  - words_of_command w "list" no_args st.
  - words_of_command w "cp" a st.
  - words_of_no_call w "cp" st.
  - words_of_command w "rm" a st.
  - words_of_no_call w "rm" st.
  - rewrite chat_call_any.
    destruct (messages a) as [msgs|].
    + rewrite chat_call.
      destruct (post w (chat_request w a msgs)) as [data|e|message];
        cbn [fst]; [exact I| |].
      * destruct (rejected_words "Unexpected error: " e ltac:(cbn; tauto))
          as (words & detail & Hw & ->).
        left. exists words, detail. split; [exact Hw | now left].
      * right. now eexists.
    + cbn [fst]. left. exists "Unexpected error: ". eexists.
      split; [cbn; tauto | left; reflexivity].
  - words_of_no_call w "chat_completion" st.
Qed.

(** X18. The message of every Fault starts with the words of the place
    that threw it: [Unknown tool: ], one of the [Failed to ...: ] of the
    handlers, [Ollama API error: ] or [Unexpected error: ]. The words
    [Error executing <name>: ] of the dispatcher's own [catch] never
    appear: every handler has already turned what it caught into an
    [McpError], which the dispatcher throws again as it is. *)
Theorem fault_messages_start_with_fixed_words :
  forall (w : World) (request : Request) (st : State) (code : ErrorCode)
         (message : string),
    fst (CallTool w request st) = inl (McpError code message) ->
    (exists words detail, In words fault_words /\ message = words ++ detail)
    /\ forall detail, message <> "Error executing " ++ detail.
Proof.
  intros w request st code message Hcall.
  pose proof (call_fault_words w request st) as H.
  rewrite Hcall in H.
  destruct H as [(words & detail & Hin & He) | [other He]];
    [|discriminate He].
  assert (Hm : message = words ++ detail)
    by (destruct He as [He | He]; now injection He).
  split; [now exists words, detail|].
  intros other Heq. rewrite Hm in Heq.
  cbn [fault_words In] in Hin.
  repeat (destruct Hin as [<- | Hin]; [discriminate Heq|]).
  exact Hin.
Qed.

Lemma fault_messages_start_with_fixed_words_witness :
  (exists words detail,
     In words fault_words
     /\ "Failed to pull model: Cannot read properties of undefined (reading 'name')"
        = words ++ detail)
  /\ forall detail,
       "Failed to pull model: Cannot read properties of undefined (reading 'name')"
       <> "Error executing " ++ detail.
Proof.
  apply (fault_messages_start_with_fixed_words calm
           {| tool := "pull"; arguments := None |} initial InternalError).
  reflexivity.
Defined.

(* ================================================================== *)
(** * Calls to the daemon that miss a field, and calls in a row *)
(* ================================================================== *)

(** X19. A required field that is missing does not stop a call to the
    daemon either: [run] without [name] or [prompt] and [chat_completion]
    without [model] post their request with the key left out, and the
    result of such a [chat_completion] has no [model]. *)
Theorem missing_field_posts_anyway :
  forall (w : World) (a : Args) (msgs : list ChatMessage) (st : State),
    (exists req,
       trace (snd (CallTool w (run a) st)) = (trace st ++ [Post req])%list
       /\ (name a = None -> b_model (body req) = None)
       /\ (prompt a = None -> b_prompt (body req) = None))
    /\ (model a = None ->
        exists req,
          b_model (body req) = None
          /\ forall p,
               post w req = HttpResolved (JsonBody p) ->
               exists result,
                 CallTool w (chat a msgs) st
                 = (inr {| content_of :=
                             [text_block (stringify_object result)] |},
                    {| trace := trace st ++ [Post req; Now; Now];
                       reads := S (S (reads st)) |})
                 /\ Js.lookup "model" result = Js.JUndefined
                 /\ Js.lookup "choices" result
                    = Js.JArr [choice (Js.JStr (response p))]).
Proof.
  intros w a msgs st. split.
  - exists (run_request w a). rewrite run_call.
    split; [reflexivity|]. split; intros H; exact H.
  - intros Hm. exists (chat_request w a msgs).
    split; [exact Hm|].
    intros p Hpost. rewrite chat_call, Hpost. rewrite Hm.
    eexists. split; [reflexivity|]. split; reflexivity.
Qed.

(** X20. Calls made one after the other share the clock and nothing else:
    a second [chat_completion] that follows a first one reads the clock
    after it, so that the two results have different ids whenever the
    clock has moved between the first reading of the one and the first
    reading of the other. *)
Theorem successive_results_have_different_ids :
  forall (w : World) (a a' : Args) (msgs msgs' : list ChatMessage)
         (st : State) (p p' : OllamaGenerateResponse),
    post w (chat_request w a msgs) = HttpResolved (JsonBody p) ->
    post w (chat_request w a' msgs') = HttpResolved (JsonBody p') ->
    now w (reads st) <> now w (S (S (reads st))) ->
    exists result result' st',
      CallTool w (chat a msgs) st
      = (inr {| content_of := [text_block (stringify_object result)] |}, st')
      /\ fst (CallTool w (chat a' msgs') st')
         = inr {| content_of := [text_block (stringify_object result')] |}
      /\ Js.lookup "id" result
         = Js.JStr ("chatcmpl-" ++ Js.Number_toString (now w (reads st)))
      /\ Js.lookup "id" result'
         = Js.JStr
             ("chatcmpl-" ++ Js.Number_toString (now w (S (S (reads st)))))
      /\ Js.lookup "id" result <> Js.lookup "id" result'.
Proof.
  intros w a a' msgs msgs' st p p' Hpost Hpost' Hclock.
  rewrite chat_call, Hpost.
  eexists. eexists. eexists. split; [reflexivity|].
  rewrite chat_call, Hpost'. cbn [fst reads].
  split; [reflexivity|].
  assert (Hid : forall t t2 m c,
             Js.lookup "id" (chat_completion t t2 m c)
             = Js.JStr ("chatcmpl-" ++ Js.Number_toString t))
    by (intros t t2 m c; now destruct m).
  rewrite !Hid. split; [reflexivity|]. split; [reflexivity|].
  intros Heq. injection Heq as Heq.
  apply Hclock, Number_toString_inj. exact Heq.
Qed.

Lemma successive_results_have_different_ids_witness :
  exists result result' st',
    CallTool (answering "4") (chat ask two_messages) initial
    = (inr {| content_of := [text_block (stringify_object result)] |}, st')
    /\ fst (CallTool (answering "4") (chat ask two_messages) st')
       = inr {| content_of := [text_block (stringify_object result')] |}
    /\ Js.lookup "id" result <> Js.lookup "id" result'.
Proof.
  destruct (successive_results_have_different_ids (answering "4") ask ask
              two_messages two_messages initial (payload "4") (payload "4")
              eq_refl eq_refl)
    as (result & result' & st' & H1 & H2 & _ & _ & H3).
  - intros H. vm_compute in H. discriminate H.
  - exists result, result', st'.
    split; [exact H1|]. split; [exact H2 | exact H3].
Defined.

(* ================================================================== *)
(** * Failures and Faults *)
(* ================================================================== *)

Lemma internal_fault (words detail : string) :
  words <> "" ->
  well_formed_fault (McpError InternalError (words ++ detail)).
Proof.
  intros H. exists InternalError, (words ++ detail).
  repeat split; [now eexists | now apply Str_append_nonempty_l].
Qed.

Lemma accounted_fault (w : World) (e : Exn) (added : list Event) :
  well_formed_fault e -> accounted w (inl e) added.
Proof.
  intros He. split; [|split; [|split]].
  - intros _ _ _. now exists e.
  - intros _. now exists e.
  - discriminate.
  - intros e' Heq. injection Heq as <-. now left.
Qed.

Lemma accounted_envelope (w : World) (b : ContentBlock) (ev : Event)
  (later : list Event) :
  well_formed_block b ->
  ~ rejected w ev ->
  (forall ev', In ev' later -> ~ rejected w ev') ->
  accounted w (inr {| content_of := [b] |}) (ev :: later).
Proof.
  intros Hb Hev Hlater. split; [|split; [|split]].
  - intros ev' [<- | Hin] Hr; [now destruct Hev | now destruct (Hlater ev' Hin)].
  - discriminate.
  - intros env Heq. injection Heq as <-.
    split; cbn; [discriminate | now constructor].
  - discriminate.
Qed.

Lemma accounted_died (w : World) (req : HttpRequest) (message : string) :
  post w req = HttpUncaught message ->
  accounted w (inl (Error message)) [Post req].
Proof.
  intros Hpost. split; [|split; [|split]].
  - intros ev [<- | []] [e He]. congruence.
  - discriminate.
  - discriminate.
  - intros e _. right. exists (Post req). split; [now left|].
    cbn. now exists message.
Qed.

Ltac account_command w name a st :=
  rewrite (process_backed_call w {| tool := name; arguments := _ |} a st)
    by (reflexivity || (now left) || (right; cbn; tauto));
  cbn [fst snd tool];
  exists [Exec (command_line name a)];
  split; [apply adds_one; discriminate|];
  destruct (exec w (command_line name a)) as [out err|e] eqn:Hexec;
  [ apply accounted_envelope;
    [ exact I
    | intros [e He]; congruence
    | intros ev' [] ]
  | apply accounted_fault, internal_fault; cbn; discriminate ].

Ltac account_no_call w name st :=
  let H := fresh in
  destruct (no_arguments_call w name st ltac:(cbn; tauto))
    as (words & detail & Hw & H);
  rewrite H; cbn [fst snd];
  exists []; split; [apply adds_nothing|];
  apply accounted_fault, internal_fault; now apply fault_words_not_empty.

Lemma rejected_fault (words : string) (e : Exn) :
  words <> "" ->
  well_formed_fault (McpError InternalError (rejected_message words e)).
Proof.
  intros Hw. destruct e; cbn [rejected_message]; now apply internal_fault.
Qed.

(** X21. Every way a tool call can fail ends in exactly one Fault, and
    only a call whose backend call succeeded returns an Envelope: when the
    command is rejected, when the request is rejected, and when the call
    reaches no backend at all (unknown tool, no arguments, no messages),
    the call throws an [McpError] with a code of the closed set and a
    message that is not empty; when it returns, the Envelope is well
    formed. The only end that is neither is that of a request that never
    settled, on which the process died. *)
Theorem failures_become_faults :
  forall (w : World) (request : Request) (st : State),
    exists added,
      adds st (snd (CallTool w request st)) added
      /\ (forall ev, In ev added -> rejected w ev ->
            exists e,
              fst (CallTool w request st) = inl e /\ well_formed_fault e)
      /\ (added = [] ->
          exists e, fst (CallTool w request st) = inl e /\ well_formed_fault e)
      /\ (forall env,
            fst (CallTool w request st) = inr env -> well_formed_envelope env)
      /\ (forall e,
            fst (CallTool w request st) = inl e ->
            well_formed_fault e \/ exists ev, In ev added /\ uncaught w ev).
Proof.
  intros w [name args] st.
  change (exists added,
             adds st (snd (CallTool w {| tool := name; arguments := args |} st))
               added
             /\ accounted w
                  (fst (CallTool w {| tool := name; arguments := args |} st))
                  added).
  destruct (in_dec string_dec name (map t_name tools)) as [Hin|Hout].
  2:{ rewrite (unknown_tool_call w name args st Hout). cbn [fst snd].
      exists []. split; [apply adds_nothing|].
      apply accounted_fault.
      exists MethodNotFound, ("Unknown tool: " ++ name).
      repeat split; [now eexists | discriminate]. }
  cbn [map tools t_name In] in Hin.
  destruct Hin as [<- | [<- | [<- | [<- | [<- | [<- | [<- | [<- | [<- | [<- | []]]]]]]]]]];
    destruct args as [a|].
  - account_command w "serve" a st.
  - account_command w "serve" no_args st.
  - account_command w "create" a st.
  - account_no_call w "create" st.
  - account_command w "show" a st.
  - account_no_call w "show" st.
  - change {| tool := "run"; arguments := Some a |} with (run a).
    rewrite run_call. cbn [fst snd].
    exists [Post (run_request w a)].
    split; [apply adds_one; discriminate|].
    destruct (post w (run_request w a)) as [[p|chunks|chunks]|e|message]
      eqn:Hpost.
    + apply accounted_fault, internal_fault. discriminate.
    + apply accounted_envelope.
      * apply piped_well_formed.
      * intros [e He]. congruence.
      * intros ev' [].
    + apply accounted_fault, internal_fault. discriminate.
    + apply accounted_fault, rejected_fault. discriminate.
    + now apply accounted_died.
  - account_no_call w "run" st.
  - account_command w "pull" a st.
  - account_no_call w "pull" st.
  - account_command w "push" a st.
  - account_no_call w "push" st.
  - account_command w "list" a st.
  - account_command w "list" no_args st.
  - account_command w "cp" a st.
  - account_no_call w "cp" st.
  - account_command w "rm" a st.
  - account_no_call w "rm" st.
  - rewrite chat_call_any.
    destruct (messages a) as [msgs|].
    + rewrite chat_call.
      destruct (post w (chat_request w a msgs)) as [data|e|message] eqn:Hpost;
        cbn [fst snd].
      * exists [Post (chat_request w a msgs); Now; Now].
        split; [unfold adds; reflexivity|].
        apply accounted_envelope.
        -- exact I.
        -- intros [e He]. congruence.
        -- intros ev' [<- | [<- | []]] Hr; exact Hr.
      * exists [Post (chat_request w a msgs)].
        split; [apply adds_one; discriminate|].
        apply accounted_fault, rejected_fault. discriminate.
      * exists [Post (chat_request w a msgs)].
        split; [apply adds_one; discriminate|].
        now apply accounted_died.
    + cbn [fst snd]. exists []. split; [apply adds_nothing|].
      apply accounted_fault, internal_fault. discriminate.
  - account_no_call w "chat_completion" st.
Qed.
